(** * pickleballtv: a Streamlink plugin, embedded and verified

    The plugin ([src/streamlink/plugins/pickleballtv.py]) is one method,
    [PickleballTV._get_streams]: it GETs a fixed JSON endpoint, validates
    the decoded document against a schema built from
    [streamlink.plugin.api.validate], reads
    [playlist[0]["sources"][0]["file"]] and hands that value to
    [HLSStream.parse_variant_playlist].

    Layout of the development:
    - [Py]         the Python values and exceptions the method touches;
    - [Urllib]     [urllib.parse.urlsplit] / [urlparse], which
                   [validate.url] calls;
    - [Validate]   the schema combinators of [streamlink.plugin.api.validate]
                   that the plugin's schema is built from;
    - [PickleballTV] the method itself, over a record of the host's
                   collaborators (HTTP session, JSON decoder, HLS parser);
    - [Re], [PluginMatcher] the pattern of the [pluginmatcher] decorator
                   and [Pattern.match];
    - [Fixture]    concrete collaborators for evaluating the method;
    - the properties.

    The library layers follow the sources of what the plugin imports:
    [streamlink/plugin/api/validate/_validate.py] and [_validators.py],
    [HTTPSession.request] and [utils.parse.parse_json] of Streamlink 6, and
    [urllib/parse.py] of CPython 3.11.

    Strings are [String.string]; a character stands for a code point
    below 256. *)

From Stdlib Require Import String Ascii List ZArith Lia Bool.
From Stdlib Require Import Floats.SpecFloat.
Import ListNotations.

Set Warnings "-register-all".

Local Open Scope list_scope.
Local Open Scope string_scope.

(* ===================================================================== *)
(** * Python values, exceptions and the operations the method uses       *)
(* ===================================================================== *)

Module Py.

(** The objects [json.loads] can build, which are also the objects the
    schema and the method operate on.  A [dict] keeps its keys in insertion
    order; JSON keys are always strings. *)
Inductive value : Type :=
| VNone
| VBool (b : bool)
| VInt (n : Z)
| VFloat (f : spec_float)
| VStr (s : string)
| VList (items : list value)
| VDict (items : list (string * value)).

(** The classes that [validate_type] is asked about. *)
Inductive pytype : Type := TStr | TList | TDict.

Definition isinstance (v : value) (t : pytype) : bool :=
  match t, v with
  | TStr, VStr _ => true
  | TList, VList _ => true
  | TDict, VDict _ => true
  | _, _ => false
  end.

(** What went wrong inside a schema: the message of a
    [streamlink.plugin.api.validate.ValidationError], with its context
    chain. *)
Inductive validation_error : Type :=
| WrongType (expected : pytype) (actual : value)
    (* "Type of {value} should be {expected}, but is {actual}" *)
| KeyNotFound (key : string) (actual : value)
    (* "Key {key} not found in {value}" *)
| KeyValue (key : string) (context : validation_error)
    (* "Unable to validate value of key {key}" *)
| AnyOf (errors : list validation_error)
    (* AnySchema: every alternative failed *)
| CallableFailed (actual : value)
    (* "{callable} is not true" *)
| NotAUrl (actual : string)
    (* "{value} is not a valid URL" *)
| InvalidUrlAttribute (name : string)
    (* "Invalid URL attribute {name}" *)
| UrlAttribute (name : string) (context : validation_error)
    (* "Unable to validate URL attribute {name}" *)
| NotEndsWith (actual suffix : string)
    (* "{value} does not end with {string}" *)
| CouldNotGetKey (key : string) (actual : value)
    (* "Could not get key {key} from object {value}" *)
| UnableToParseJSON.
    (* utils.parse.parse_json: "Unable to parse JSON: ..." *)

(** The messages a [streamlink.exceptions.PluginError] carries on this
    path. *)
Inductive plugin_failure : Type :=
| UnableToOpenUrl
    (* session.http.get on a transport failure: "Unable to open URL: ..." *)
| UnableToValidate (e : validation_error).
    (* Schema.validate: "Unable to validate response text: ..." *)

Inductive exn : Type :=
| ValidationError (e : validation_error)
| PluginError (f : plugin_failure)
| ValueError
| IndexError
| KeyError
| TypeError.

(** The spec's names for the two fatal outcomes of validation.  Both reach
    the caller as a [PluginError] raised by [Schema.validate]; they differ in
    the validation error it reports: the JSON decoder's, or a mismatch
    between the decoded document and the schema. *)
Definition is_parse_failure (e : validation_error) : bool :=
  match e with UnableToParseJSON => true | _ => false end.

Definition ParseError : exn := PluginError (UnableToValidate UnableToParseJSON).

Definition is_SchemaError (x : exn) : bool :=
  match x with
  | PluginError (UnableToValidate e) => negb (is_parse_failure e)
  | _ => false
  end.

(** A Python expression either evaluates or raises. *)
Inductive result (A : Type) : Type :=
| Ok (a : A)
| Raise (e : exn).
Arguments Ok {A} a.
Arguments Raise {A} e.

Definition bind {A B} (m : result A) (k : A -> result B) : result B :=
  match m with
  | Ok a => k a
  | Raise e => Raise e
  end.

Definition raised {A} (m : result A) : bool :=
  match m with Ok _ => false | Raise _ => true end.

(** [bool(v)]: the truth value used by [if not video_url]. *)
Definition is_zero_float (f : spec_float) : bool :=
  match f with S754_zero _ => true | _ => false end.

Definition truthy (v : value) : bool :=
  match v with
  | VNone => false
  | VBool b => b
  | VInt n => negb (n =? 0)%Z
  | VFloat f => negb (is_zero_float f)
  | VStr s => negb (s =? "")
  | VList l => match l with [] => false | _ => true end
  | VDict d => match d with [] => false | _ => true end
  end.

(** [d[key]] on a dict; [None] when [key not in d]. *)
Fixpoint dict_get (d : list (string * value)) (key : string) : option value :=
  match d with
  | [] => None
  | (k, v) :: rest => if k =? key then Some v else dict_get rest key
  end.

(** [d[key] = v]: an existing key keeps its place. *)
Fixpoint dict_set (d : list (string * value)) (key : string) (v : value)
  : list (string * value) :=
  match d with
  | [] => [(key, v)]
  | (k, w) :: rest =>
      if k =? key then (k, v) :: rest else (k, w) :: dict_set rest key v
  end.

(** [v[i]] for an integer constant [i].  A negative index counts from the
    end.  A dict of string keys has no integer key. *)
Definition seq_index (len : nat) (i : Z) : option nat :=
  let n := Z.of_nat len in
  let j := if (i <? 0)%Z then (i + n)%Z else i in
  if ((0 <=? j) && (j <? n))%Z%bool then Some (Z.to_nat j) else None.

Definition getitem_int (v : value) (i : Z) : result value :=
  match v with
  | VList l =>
      match seq_index (List.length l) i with
      | Some j => match nth_error l j with
                  | Some x => Ok x
                  | None => Raise IndexError
                  end
      | None => Raise IndexError
      end
  | VStr s =>
      match seq_index (String.length s) i with
      | Some j => match String.get j s with
                  | Some c => Ok (VStr (String c ""))
                  | None => Raise IndexError
                  end
      | None => Raise IndexError
      end
  | VDict _ => Raise KeyError
  | _ => Raise TypeError
  end.

(** [v[key]] for a string constant [key]. *)
Definition getitem_str (v : value) (key : string) : result value :=
  match v with
  | VDict d =>
      match dict_get d key with
      | Some x => Ok x
      | None => Raise KeyError
      end
  | _ => Raise TypeError
  end.

(** [str] methods. *)
Fixpoint endswith (s suffix : string) : bool :=
  if (String.length s <? String.length suffix)%nat then false
  else if s =? suffix then true
  else match s with
       | "" => false
       | String _ rest => endswith rest suffix
       end.

Fixpoint contains (c : ascii) (s : string) : bool :=
  match s with
  | "" => false
  | String a rest => (a =? c)%char || contains c rest
  end.

(** [s.partition(c)] for a one-character separator: [None] when [c] does
    not occur, otherwise the text before and after its first occurrence. *)
Fixpoint partition (c : ascii) (s : string) : option (string * string) :=
  match s with
  | "" => None
  | String a rest =>
      if (a =? c)%char then Some ("", rest)
      else match partition c rest with
           | Some (before, after) => Some (String a before, after)
           | None => None
           end
  end.

(** [s.rpartition(c)]: the same at the last occurrence. *)
Fixpoint rpartition (c : ascii) (s : string) : option (string * string) :=
  match s with
  | "" => None
  | String a rest =>
      match rpartition c rest with
      | Some (before, after) => Some (String a before, after)
      | None => if (a =? c)%char then Some ("", rest) else None
      end
  end.

(** [s[:i], s[i:]] where [i] is the first position whose character
    satisfies [p], or [len(s)] when there is none. *)
Fixpoint break (p : ascii -> bool) (s : string) : string * string :=
  match s with
  | "" => ("", "")
  | String a rest =>
      if p a then ("", s)
      else let (before, after) := break p rest in (String a before, after)
  end.

Fixpoint lstrip (p : ascii -> bool) (s : string) : string :=
  match s with
  | "" => ""
  | String a rest => if p a then lstrip p rest else s
  end.

Fixpoint remove_chars (p : ascii -> bool) (s : string) : string :=
  match s with
  | "" => ""
  | String a rest =>
      if p a then remove_chars p rest else String a (remove_chars p rest)
  end.

Fixpoint forallb_str (p : ascii -> bool) (s : string) : bool :=
  match s with
  | "" => true
  | String a rest => p a && forallb_str p rest
  end.

Definition in_range (lo hi : nat) (c : ascii) : bool :=
  let n := nat_of_ascii c in ((lo <=? n) && (n <=? hi))%nat.

Definition is_upper : ascii -> bool := in_range 65 90.
Definition is_lower : ascii -> bool := in_range 97 122.
Definition is_digit : ascii -> bool := in_range 48 57.
Definition is_ascii_alpha (c : ascii) : bool := is_upper c || is_lower c.

Definition lower_char (c : ascii) : ascii :=
  if is_upper c then ascii_of_nat (nat_of_ascii c + 32) else c.

Fixpoint lower (s : string) : string :=
  match s with
  | "" => ""
  | String a rest => String (lower_char a) (lower rest)
  end.

(** [s[:-1]]. *)
Fixpoint drop_last (s : string) : string :=
  match s with
  | "" => ""
  | String a "" => ""
  | String a rest => String a (drop_last rest)
  end.

End Py.

(* ===================================================================== *)
(** * urllib.parse: urlsplit and urlparse                                *)
(* ===================================================================== *)

Module Urllib.
Import Py.

(** [urllib.parse.ParseResult], a named 6-tuple. *)
Record ParseResult : Type := mkParseResult {
  scheme : string;
  netloc : string;
  path : string;
  params : string;
  query : string;
  fragment : string
}.

Definition uses_params : list string :=
  [""; "ftp"; "hdl"; "prospero"; "http"; "imap";
   "https"; "shttp"; "rtsp"; "rtspu"; "sip"; "sips";
   "mms"; "sftp"; "tel"].

(** [c in scheme_chars]: letters, digits and "+-.". *)
Definition scheme_char (c : ascii) : bool :=
  is_ascii_alpha c || is_digit c
  || (c =? "+")%char || (c =? "-")%char || (c =? ".")%char.

(** [_WHATWG_C0_CONTROL_OR_SPACE]: the code points 0 to 0x20. *)
Definition c0_control_or_space (c : ascii) : bool :=
  (nat_of_ascii c <=? 32)%nat.

(** [_UNSAFE_URL_BYTES_TO_REMOVE]: tab, carriage return, line feed. *)
Definition unsafe_url_byte (c : ascii) : bool :=
  let n := nat_of_ascii c in
  ((n =? 9) || (n =? 13) || (n =? 10))%nat.

(** The scheme test at the head of [urlsplit]:
<<
    i = url.find(':')
    if i > 0 and url[0].isascii() and url[0].isalpha():
        for c in url[:i]:
            if c not in scheme_chars: break
        else:
            scheme, url = url[:i].lower(), url[i+1:]
>>
    The default scheme is [''] (the caller passes none). *)
Definition split_scheme (url : string) : string * string :=
  match partition ":" url with
  | Some (String c0 _ as head, rest) =>
      if is_ascii_alpha c0 && forallb_str scheme_char head
      then (lower head, rest)
      else ("", url)
  | _ => ("", url)
  end.

(** [_splitnetloc(url, 2)], for a [url] that starts with "//": the text
    up to the first of "/?#" after the two slashes, and the rest. *)
Definition netloc_delim (c : ascii) : bool :=
  (c =? "/")%char || (c =? "?")%char || (c =? "#")%char.

Definition _splitnetloc2 (url : string) : string * string :=
  break netloc_delim (String.substring 2 (String.length url - 2) url).

(** [_check_bracketed_netloc]: where the host sits between brackets, no
    text may stand before "[", and after "]" only a port.  The host found
    is handed to [_check_bracketed_host], which consults the [ipaddress]
    module; that check is a collaborator, [bracketed_host_ok], [true] when
    it returns and [false] when it raises [ValueError]. *)
Definition _check_bracketed_netloc (bracketed_host_ok : string -> bool)
    (netloc : string) : bool :=
  let hostname_and_port :=
    match rpartition "@" netloc with
    | Some (_, after) => after
    | None => netloc
    end in
  match partition "[" hostname_and_port with
  | Some (before_bracket, bracketed) =>
      if negb (before_bracket =? "") then false
      else
        let (hostname, port) :=
          match partition "]" bracketed with
          | Some (h, p) => (h, p)
          | None => (bracketed, "")
          end in
        if negb (port =? "") && negb (String.prefix ":" port) then false
        else bracketed_host_ok hostname
  | None =>
      let hostname :=
        match partition ":" hostname_and_port with
        | Some (h, _) => h
        | None => hostname_and_port
        end in
      bracketed_host_ok hostname
  end.

(** [urlsplit(url)] with the default [scheme=''] and
    [allow_fragments=True].  [_checknetloc] only looks for characters whose
    NFKC normal form contains one of "/?#@:"; no code point below 256 has
    one, so it never raises on the strings modelled here.  The result is
    the 5-tuple (scheme, netloc, path, query, fragment). *)
Definition urlsplit (bracketed_host_ok : string -> bool) (url : string)
  : result (string * string * string * string * string) :=
  let url := lstrip c0_control_or_space url in
  let url := remove_chars unsafe_url_byte url in
  let (scheme, url) := split_scheme url in
  bind
    (if String.prefix "//" url then
       let (netloc, rest) := _splitnetloc2 url in
       let has_open := contains "[" netloc in
       let has_close := contains "]" netloc in
       if (has_open && negb has_close) || (has_close && negb has_open)
       then Raise ValueError
       else if has_open && has_close
                 && negb (_check_bracketed_netloc bracketed_host_ok netloc)
       then Raise ValueError
       else Ok (netloc, rest)
     else Ok ("", url))
    (fun '(netloc, url) =>
       let (url, fragment) :=
         match partition "#" url with
         | Some (u, f) => (u, f)
         | None => (url, "")
         end in
       let (url, query) :=
         match partition "?" url with
         | Some (u, q) => (u, q)
         | None => (url, "")
         end in
       Ok (scheme, netloc, url, query, fragment)).

(** [_splitparams(url)]:
<<
    if '/' in url:
        i = url.find(';', url.rfind('/'))
        if i < 0: return url, ''
    else:
        i = url.find(';')
    return url[:i], url[i+1:]
>> *)
Definition _splitparams (url : string) : string * string :=
  match rpartition "/" url with
  | Some (head, tail) =>
      match partition ";" tail with
      | Some (before, after) => (head ++ "/" ++ before, after)
      | None => (url, "")
      end
  | None =>
      match partition ";" url with
      | Some (before, after) => (before, after)
      | None => (drop_last url, url)
      end
  end.

(** [urlparse(url)]. *)
Definition urlparse (bracketed_host_ok : string -> bool) (url : string)
  : result ParseResult :=
  bind (urlsplit bracketed_host_ok url)
    (fun '(scheme, netloc, url, query, fragment) =>
       let (url, params) :=
         if existsb (String.eqb scheme) uses_params && contains ";" url
         then _splitparams url
         else (url, "") in
       Ok (mkParseResult scheme netloc url params query fragment)).

(** [getattr(parsed, name)] for the six fields of the tuple; [None] stands
    for a name [hasattr] does not find. *)
Definition getattr (parsed : ParseResult) (name : string) : option value :=
  if name =? "scheme" then Some (VStr (scheme parsed))
  else if name =? "netloc" then Some (VStr (netloc parsed))
  else if name =? "path" then Some (VStr (path parsed))
  else if name =? "params" then Some (VStr (params parsed))
  else if name =? "query" then Some (VStr (query parsed))
  else if name =? "fragment" then Some (VStr (fragment parsed))
  else None.

End Urllib.


(* ===================================================================== *)
(** * streamlink.plugin.api.validate                                     *)
(* ===================================================================== *)

Module Validate.
Import Py.

(** A schema node, applied: [validate(schema, value)] either returns the
    (possibly transformed) value or raises. *)
Definition validator : Type := value -> result value.

(** [try: ... except ValidationError as err: raise ValidationError(...)]:
    a validation error is re-raised inside a context, any other exception
    passes through. *)
Definition with_context {A} (ctx : validation_error -> validation_error)
    (r : result A) : result A :=
  match r with
  | Raise (ValidationError e) => Raise (ValidationError (ctx e))
  | other => other
  end.

(** [_validate_type]. *)
Definition validate_type (t : pytype) : validator :=
  fun value =>
    if isinstance value t then Ok value
    else Raise (ValidationError (WrongType t value)).

(** [_validate_callable]: the callable's result must be true. *)
Definition validate_callable (f : value -> result bool) : validator :=
  fun value =>
    bind (f value) (fun ok =>
    if ok then Ok value
    else Raise (ValidationError (CallableFailed value))).

(** [_validate_allschema]: each schema receives the previous one's output. *)
Fixpoint validate_all (schemas : list validator) : validator :=
  fun value =>
    match schemas with
    | [] => Ok value
    | schema :: rest => bind (schema value) (validate_all rest)
    end.

(** [_validate_anyschema]: the first alternative that validates wins; when
    none does, the collected errors are raised together. *)
Fixpoint validate_any_from (errors : list validation_error)
    (schemas : list validator) : validator :=
  fun value =>
    match schemas with
    | [] => Raise (ValidationError (AnyOf errors))
    | subschema :: rest =>
        match subschema value with
        | Raise (ValidationError err) =>
            validate_any_from (errors ++ [err])%list rest value
        | other => other
        end
    end.

Definition validate_any : list validator -> validator :=
  validate_any_from [].

(** [cls(f(v) for v in value)]: stops at the first element that raises. *)
Fixpoint map_result {A B} (f : A -> result B) (l : list A) : result (list B) :=
  match l with
  | [] => Ok []
  | x :: rest =>
      bind (f x) (fun y =>
      bind (map_result f rest) (fun ys => Ok (y :: ys)))
  end.

(** [_validate_sequence], for a [list] schema:
<<
    cls = type(schema)
    validate_type(cls, value)
    any_schemas = AnySchema of the schema's elements
    return cls(validate(any_schemas, v) for v in value)
>> *)
Definition validate_list (schema : list validator) : validator :=
  fun value =>
    bind (validate_type TList value) (fun value =>
    match value with
    | VList items =>
        bind (map_result (validate_any schema) items) (fun new =>
        Ok (VList new))
    | _ => Raise TypeError
    end).

(** [_validate_dict], for a schema whose keys are plain strings:
<<
    new = cls()
    for key, subschema in schema.items():
        if key not in value:
            raise ValidationError("Key {key} not found in {value}", ...)
        try:
            new[key] = validate(subschema, value[key])
        except ValidationError as err:
            raise ValidationError("Unable to validate value of key {key}", ...)
    return new
>> *)
Fixpoint validate_dict_items (schema : list (string * validator))
    (value : list (string * Py.value)) (new : list (string * Py.value))
  : result (list (string * Py.value)) :=
  match schema with
  | [] => Ok new
  | (key, subschema) :: rest =>
      match dict_get value key with
      | None => Raise (ValidationError (KeyNotFound key (VDict value)))
      | Some item =>
          bind (with_context (KeyValue key) (subschema item)) (fun item' =>
          validate_dict_items rest value (dict_set new key item'))
      end
  end.

Definition validate_dict (schema : list (string * validator)) : validator :=
  fun value =>
    bind (validate_type TDict value) (fun value =>
    match value with
    | VDict items =>
        bind (validate_dict_items schema items []) (fun new =>
        Ok (VDict new))
    | _ => Raise TypeError
    end).

(** [_validate_getitemschema] for [validate.get(key)] with one string key
    and the default [None]: a missing key yields the default, an object
    that cannot be subscripted by a string is a validation error. *)
Definition validate_get (key : string) : validator :=
  fun value =>
    match getitem_str value key with
    | Ok item => Ok item
    | Raise KeyError | Raise IndexError => Ok VNone
    | Raise TypeError => Raise (ValidationError (CouldNotGetKey key value))
    | Raise other => Raise other
    end.

(** [validate.parse_json()]: a transform schema around
    [utils.parse.parse_json(data, exception=ValidationError)], which hands
    [data] to [json.loads] and turns whatever it raises into the given
    exception.  [json_loads] answers [None] when [json.loads] raises. *)
Definition parse_json (json_loads : string -> option value) : validator :=
  fun value =>
    match value with
    | VStr data =>
        match json_loads data with
        | Some parsed => Ok parsed
        | None => Raise (ValidationError UnableToParseJSON)
        end
    | _ => Raise (ValidationError UnableToParseJSON)
    end.

(** [validate.endswith(string)] returns the callable
<<
    def ends_with(value):
        validate(str, value)
        if not value.endswith(string):
            raise ValidationError("{value} does not end with {string}", ...)
        return True
>> *)
Definition endswith (suffix : string) : value -> result bool :=
  fun value =>
    bind (validate_type TStr value) (fun value =>
    match value with
    | VStr s =>
        if Py.endswith s suffix then Ok true
        else Raise (ValidationError (NotEndsWith s suffix))
    | _ => Raise TypeError
    end).

(** [validate.url], given keyword [attributes], returns the callable
<<
    def check_url(value):
        validate(str, value)
        parsed = urlparse(value)
        if not parsed.netloc:
            raise ValidationError("{value} is not a valid URL", ...)
        for name, schema in attributes.items():
            if not hasattr(parsed, name):
                raise ValidationError("Invalid URL attribute {name}", ...)
            try:
                validate(schema, getattr(parsed, name))
            except ValidationError as err:
                raise ValidationError(
                    "Unable to validate URL attribute {name}", ...)
        return True
>>
    [urlparse] is not guarded: a [ValueError] it raises leaves [check_url]
    as it is.  The plugin passes no [scheme] attribute, so the rewriting of
    the scheme ["http"] into "http or https" has nothing to rewrite. *)
Fixpoint check_url_attributes (parsed : Urllib.ParseResult)
    (attributes : list (string * validator)) : result bool :=
  match attributes with
  | [] => Ok true
  | (name, schema) :: rest =>
      match Urllib.getattr parsed name with
      | None => Raise (ValidationError (InvalidUrlAttribute name))
      | Some attr =>
          bind (with_context (UrlAttribute name) (schema attr)) (fun _ =>
          check_url_attributes parsed rest)
      end
  end.

Definition url (bracketed_host_ok : string -> bool)
    (attributes : list (string * validator)) : value -> result bool :=
  fun value =>
    bind (validate_type TStr value) (fun value =>
    match value with
    | VStr s =>
        bind (Urllib.urlparse bracketed_host_ok s) (fun parsed =>
        if Urllib.netloc parsed =? "" then
          Raise (ValidationError (NotAUrl s))
        else check_url_attributes parsed attributes)
    | _ => Raise TypeError
    end).

(** [Schema.validate(value, name, exception=PluginError)], for the schema
    built from [schemas]:
<<
    try:
        return validate(self, value)
    except ValidationError as err:
        raise exception(f"Unable to validate {name}: {err}") from None
>> *)
Definition Schema_validate (schemas : list validator) (value : value)
  : result Py.value :=
  match validate_all schemas value with
  | Raise (ValidationError err) => Raise (PluginError (UnableToValidate err))
  | other => other
  end.

End Validate.

(* ===================================================================== *)
(** * The plugin                                                         *)
(* ===================================================================== *)

Module PickleballTV.
Import Py.

(** What the host runtime supplies.  None of it is implemented by the
    plugin: the HTTP session, the JSON decoder behind
    [utils.parse.parse_json], the [ipaddress] check behind [urlsplit], and
    the HLS variant-playlist parser, whose return type [T] is its own. *)
Record Host (T : Type) : Type := mkHost {
  request_text : string -> result string;
    (* session.http.request("GET", url).text, or what the request raises *)
  json_loads : string -> option value;
    (* json.loads(text); None when it raises *)
  bracketed_host_ok : string -> bool;
    (* urllib.parse._check_bracketed_host returns normally *)
  parse_variant_playlist : value -> result T
    (* HLSStream.parse_variant_playlist(session, url) *)
}.
Arguments request_text {T} _ _.
Arguments json_loads {T} _ _.
Arguments bracketed_host_ok {T} _ _.
Arguments parse_variant_playlist {T} _ _.

(** The only state the method touches is the module's logger; a run maps
    the records logged so far to its outcome and the records logged after
    it.  An exception ends the run and keeps the records. *)
Inductive level : Type := DEBUG | INFO | WARNING.

Record log_record : Type := mkRecord {
  levelname : level;
  msg : string;
  arg : option value   (* the object formatted into the message *)
}.

Definition M (A : Type) : Type :=
  list log_record -> result A * list log_record.

Definition ret {A} (a : A) : M A := fun log => (Ok a, log).

Definition mbind {A B} (m : M A) (k : A -> M B) : M B :=
  fun log =>
    match m log with
    | (Ok a, log') => k a log'
    | (Raise e, log') => (Raise e, log')
    end.

Definition lift {A} (r : result A) : M A := fun log => (r, log).

Definition emit (l : level) (text : string) (a : option value) : M unit :=
  fun log => (Ok tt, (log ++ [mkRecord l text a])%list).

Declare Scope py_scope.
Delimit Scope py_scope with py.
Notation "x <- m ;; k" := (mbind m (fun x => k))
  (at level 61, m at next level, right associativity) : py_scope.
Notation "m ;; k" := (mbind m (fun _ => k))
  (at level 61, right associativity) : py_scope.
Local Open Scope py_scope.

Definition log_debug := emit DEBUG.
Definition log_info := emit INFO.
Definition log_warn := emit WARNING.

Section Plugin.

Context {T : Type} (host : Host T).

(** [session.http.get(url, schema=schema)]: the response text goes through
    [schema.validate(res.text, name="response text",
    exception=PluginError)]. *)
Definition http_get (url : string) (schema : list Validate.validator)
  : result value :=
  bind (request_text host url) (fun text =>
  Validate.Schema_validate schema (VStr text)).

(** The URL of line 33. *)
Definition endpoint : string := "https://cdn.jwplayer.com/v2/media/kqrvUq1X".

(** The schema of a ["file"] value:
    [validate.url(path=validate.endswith(".m3u8"))]. *)
Definition file_schema : Validate.validator :=
  Validate.validate_callable
    (Validate.url (bracketed_host_ok host)
       [("path", Validate.validate_callable (Validate.endswith ".m3u8"))]).

(** The schema of one element of a ["sources"] list. *)
Definition source_schema : Validate.validator :=
  Validate.validate_dict [("file", file_schema)].

(** The schema of one element of the ["playlist"] list. *)
Definition entry_schema : Validate.validator :=
  Validate.validate_dict
    [("sources", Validate.validate_list [source_schema])].

(** The dict schema, the second argument of [validate.Schema]. *)
Definition document_schema : Validate.validator :=
  Validate.validate_dict
    [("playlist", Validate.validate_list [entry_schema])].

(** The arguments of [validate.Schema] (lines 34 to 51). *)
Definition schema : list Validate.validator :=
  [ Validate.parse_json (json_loads host);
    document_schema;
    Validate.validate_get "playlist" ].

(** [playlist[0]["sources"][0]["file"]] (line 55). *)
Definition first_file (playlist : value) : result value :=
  bind (getitem_int playlist 0) (fun entry =>
  bind (getitem_str entry "sources") (fun sources =>
  bind (getitem_int sources 0) (fun source =>
  getitem_str source "file"))).

(** [PickleballTV._get_streams] (lines 30 to 63).  A bare [return] is
    [None]; otherwise the method returns what the HLS parser returns. *)
Definition _get_streams : M (option T) :=
  playlist <- lift (http_get endpoint schema) ;;
  log_debug "playlist: " (Some playlist) ;;
  video_url <- lift (first_file playlist) ;;
  if negb (truthy video_url) then
    log_warn "Could not find video_url" None ;;
    ret None
  else
    log_info "Using video_url: " (Some video_url) ;;
    streams <- lift (parse_variant_playlist host video_url) ;;
    ret (Some streams).

End Plugin.

End PickleballTV.

(* ===================================================================== *)
(** * The plugin matcher                                                 *)
(* ===================================================================== *)

(** [re], for the patterns written with literal characters, escaped
    punctuation and the postfix [?]: what [re.compile] builds from such a
    pattern and what [Pattern.match] answers. *)
Module Re.
Import Py.

(** One character of a pattern, required or optional. *)
Record item : Type := mkItem {
  char : ascii;
  optional : bool
}.

Definition regex : Type := list item.

Inductive token : Type :=
| TChar (c : ascii)
| TQuestion.

(** The characters with a meaning of their own in a pattern. *)
Definition special (c : ascii) : bool :=
  contains c ".^$*+?{}[]|()" || (c =? "092")%char.

(** A backslash makes a literal of an ASCII character that is neither a
    letter nor a digit. *)
Definition escapable (c : ascii) : bool :=
  (nat_of_ascii c <? 128)%nat && negb (is_ascii_alpha c || is_digit c).

Fixpoint tokens (pattern : string) : option (list token) :=
  match pattern with
  | "" => Some []
  | String c rest =>
      if (c =? "092")%char then
        match rest with
        | String e rest' =>
            if escapable e
            then option_map (cons (TChar e)) (tokens rest')
            else None
        | "" => None
        end
      else if (c =? "?")%char then option_map (cons TQuestion) (tokens rest)
      else if special c then None
      else option_map (cons (TChar c)) (tokens rest)
  end.

(** A [?] applies to the character before it; a pattern that starts with
    one, or repeats one, is outside these patterns. *)
Fixpoint items (toks : list token) : option regex :=
  match toks with
  | [] => Some []
  | TChar c :: TQuestion :: rest =>
      match rest with
      | TQuestion :: _ => None
      | _ => option_map (cons (mkItem c true)) (items rest)
      end
  | TChar c :: rest => option_map (cons (mkItem c false)) (items rest)
  | TQuestion :: _ => None
  end.

(** [re.compile(pattern)], with no flags. *)
Definition compile (pattern : string) : option regex :=
  match tokens pattern with
  | Some toks => items toks
  | None => None
  end.

(** [pattern.match(string)]: the match starts at the first character; an
    optional character is taken when the rest of the pattern still matches
    after it, and skipped otherwise.  The answer is the matched text,
    [group(0)], or [None]. *)
Fixpoint re_match (r : regex) (s : string) : option string :=
  match r with
  | [] => Some ""
  | it :: r' =>
      let taken :=
        match s with
        | String a s' =>
            if (a =? char it)%char
            then option_map (String a) (re_match r' s')
            else None
        | "" => None
        end in
      if optional it then
        match taken with
        | Some m => Some m
        | None => re_match r' s
        end
      else taken
  end.

(** The pattern of a plain text: every character required. *)
Fixpoint literal (text : string) : regex :=
  match text with
  | "" => []
  | String c rest => mkItem c false :: literal rest
  end.

End Re.

Module PluginMatcher.

(** The pattern of the [pluginmatcher] decorator (line 26). *)
Definition pattern : string := "https?://pickleballtv\.com".

(** [matcher.pattern.match(url)], by which the session decides whether the
    plugin handles [url]: the matched text, or [None]. *)
Definition match_url (url : string) : option string :=
  match Re.compile pattern with
  | Some r => Re.re_match r url
  | None => None
  end.

End PluginMatcher.

(* ===================================================================== *)
(** * Concrete collaborators                                             *)
(* ===================================================================== *)

(** A host to run the method on: a server that answers the endpoint with a
    given body, a decoder for the JSON documents used below, and an HLS
    parser that reports the URL it was handed. *)
Module Fixture.
Import Py.

Definition dquote : ascii := "034"%char.
Definition backslash : ascii := "092"%char.

(** JSON text is written with [q] for the quotation mark. *)
Definition q : string := String dquote "".

Definition is_ws (c : ascii) : bool :=
  let n := nat_of_ascii c in
  ((n =? 32) || (n =? 9) || (n =? 10) || (n =? 13))%nat.

Definition skip_ws : string -> string := lstrip is_ws.

(** The two-character escapes of a JSON string. *)
Definition unescape (c : ascii) : option ascii :=
  if (c =? dquote)%char then Some dquote
  else if (c =? backslash)%char then Some backslash
  else if (c =? "/")%char then Some "/"%char
  else if (c =? "b")%char then Some "008"%char
  else if (c =? "f")%char then Some "012"%char
  else if (c =? "n")%char then Some "010"%char
  else if (c =? "r")%char then Some "013"%char
  else if (c =? "t")%char then Some "009"%char
  else None.

(** The text of a string after its opening quotation mark, and what
    follows the closing one.  Control characters are refused, as the
    decoder does in strict mode. *)
Fixpoint scan_string (s : string) : option (string * string) :=
  match s with
  | "" => None
  | String c rest =>
      if (c =? dquote)%char then Some ("", rest)
      else if (c =? backslash)%char then
        match rest with
        | String e rest' =>
            match unescape e, scan_string rest' with
            | Some ch, Some (text, after) => Some (String ch text, after)
            | _, _ => None
            end
        | "" => None
        end
      else if (nat_of_ascii c <? 32)%nat then None
      else
        match scan_string rest with
        | Some (text, after) => Some (String c text, after)
        | None => None
        end
  end.

Fixpoint scan_digits (acc : Z) (s : string) : Z * string :=
  match s with
  | String c rest =>
      if is_digit c
      then scan_digits (10 * acc + Z.of_nat (nat_of_ascii c - 48)) rest
      else (acc, s)
  | "" => (acc, s)
  end.

(** An integer literal: [0] or a digit run without a leading zero.  A
    fraction or an exponent would make it a float, which the documents
    used here do not contain. *)
Definition scan_unsigned (s : string) : option (Z * string) :=
  match s with
  | String c rest =>
      if (c =? "0")%char then Some (0%Z, rest)
      else if is_digit c then Some (scan_digits 0 s)
      else None
  | "" => None
  end.

Definition not_a_float (after : string) : bool :=
  match after with
  | String c _ => negb ((c =? ".")%char || (c =? "e")%char || (c =? "E")%char)
  | "" => true
  end.

Definition scan_scalar (s : string) : option (value * string) :=
  let drop n := String.substring n (String.length s - n) s in
  if String.prefix "null" s then Some (VNone, drop 4)
  else if String.prefix "true" s then Some (VBool true, drop 4)
  else if String.prefix "false" s then Some (VBool false, drop 5)
  else
    let (negative, digits) :=
      match s with
      | String c rest => if (c =? "-")%char then (true, rest) else (false, s)
      | "" => (false, s)
      end in
    match scan_unsigned digits with
    | Some (n, after) =>
        if not_a_float after
        then Some (VInt (if negative then - n else n)%Z, after)
        else None
    | None => None
    end.

Fixpoint scan_value (fuel : nat) (s : string) : option (value * string) :=
  match fuel with
  | O => None
  | S fuel =>
      match skip_ws s with
      | "" => None
      | String c rest =>
          if (c =? dquote)%char then
            match scan_string rest with
            | Some (text, after) => Some (VStr text, after)
            | None => None
            end
          else if (c =? "[")%char then
            match skip_ws rest with
            | String c' after =>
                if (c' =? "]")%char then Some (VList [], after)
                else scan_elements fuel rest []
            | "" => None
            end
          else if (c =? "{")%char then
            match skip_ws rest with
            | String c' after =>
                if (c' =? "}")%char then Some (VDict [], after)
                else scan_members fuel rest []
            | "" => None
            end
          else scan_scalar (String c rest)
      end
  end
with scan_elements (fuel : nat) (s : string) (acc : list value)
  : option (value * string) :=
  match fuel with
  | O => None
  | S fuel =>
      match scan_value fuel s with
      | Some (v, after) =>
          match skip_ws after with
          | String c rest =>
              if (c =? ",")%char then scan_elements fuel rest (acc ++ [v])%list
              else if (c =? "]")%char then Some (VList (acc ++ [v])%list, rest)
              else None
          | "" => None
          end
      | None => None
      end
  end
with scan_members (fuel : nat) (s : string) (acc : list (string * value))
  : option (value * string) :=
  match fuel with
  | O => None
  | S fuel =>
      match skip_ws s with
      | String c rest =>
          if (c =? dquote)%char then
            match scan_string rest with
            | Some (key, after_key) =>
                match skip_ws after_key with
                | String c1 rest1 =>
                    if (c1 =? ":")%char then
                      match scan_value fuel rest1 with
                      | Some (v, after) =>
                          match skip_ws after with
                          | String c2 rest2 =>
                              if (c2 =? ",")%char
                              then scan_members fuel rest2 (dict_set acc key v)
                              else if (c2 =? "}")%char
                              then Some (VDict (dict_set acc key v), rest2)
                              else None
                          | "" => None
                          end
                      | None => None
                      end
                    else None
                | "" => None
                end
            | None => None
            end
          else None
      | "" => None
      end
  end.

(** A decoder for JSON documents made of objects, arrays, strings with
    two-character escapes, integers, [true], [false] and [null].  Any other
    text is answered [None]. *)
Definition loads (text : string) : option value :=
  match scan_value (2 * String.length text + 2) text with
  | Some (v, after) => if skip_ws after =? "" then Some v else None
  | None => None
  end.

(** The streams the HLS parser of the fixture returns: one, named after the
    URL object it was called with. *)
Definition streams : Type := list (string * value).

Definition variant_playlist (url : value) : result streams :=
  Ok [("live", url)].

(** No URL below has a bracketed host. *)
Definition no_bracketed_host (_ : string) : bool := false.

Definition host (body : string) : PickleballTV.Host streams :=
  PickleballTV.mkHost streams
    (fun url =>
       if url =? PickleballTV.endpoint then Ok body
       else Raise (PluginError UnableToOpenUrl))
    loads
    no_bracketed_host
    variant_playlist.

(** The shape the endpoint serves, with one source whose file is [url]:
    [{"playlist": [{"sources": [{"file": url}]}]}]. *)
Definition document (url : string) : string :=
  "{" ++ q ++ "playlist" ++ q ++ ": [{" ++ q ++ "sources" ++ q ++ ": [{"
      ++ q ++ "file" ++ q ++ ": " ++ q ++ url ++ q ++ "}]}]}".

(** What [document url] decodes to. *)
Definition decoded (url : string) : value :=
  VDict [("playlist", VList [VDict [("sources",
    VList [VDict [("file", VStr url)]])]])].

(** [{"playlist": []}] *)
Definition empty_playlist : string :=
  "{" ++ q ++ "playlist" ++ q ++ ": []}".

(** [{"playlist": [{"sources": []}]}] *)
Definition empty_sources : string :=
  "{" ++ q ++ "playlist" ++ q ++ ": [{" ++ q ++ "sources" ++ q ++ ": []}]}".

(** [{"title": "x"}] *)
Definition no_playlist : string :=
  "{" ++ q ++ "title" ++ q ++ ": " ++ q ++ "x" ++ q ++ "}".

(** Two sources, the first valid and the second not:
    [{"playlist": [{"sources": [{"file": "https://h/a.m3u8"},
                                {"file": "https://h/b.mp4"}]}]}]. *)
Definition second_source_invalid : string :=
  "{" ++ q ++ "playlist" ++ q ++ ": [{" ++ q ++ "sources" ++ q ++ ": [{"
      ++ q ++ "file" ++ q ++ ": " ++ q ++ "https://h/a.m3u8" ++ q ++ "}, {"
      ++ q ++ "file" ++ q ++ ": " ++ q ++ "https://h/b.mp4" ++ q ++ "}]}]}".

(** A second entry without sources, after a valid first one:
    [{"playlist": [{"sources": [{"file": "https://h/a.m3u8"}]},
                   {"sources": []}]}]. *)
Definition later_entry_empty : string :=
  "{" ++ q ++ "playlist" ++ q ++ ": [{" ++ q ++ "sources" ++ q ++ ": [{"
      ++ q ++ "file" ++ q ++ ": " ++ q ++ "https://h/a.m3u8" ++ q ++ "}]}, {"
      ++ q ++ "sources" ++ q ++ ": []}]}".

(** A source without a file:
    [{"playlist": [{"sources": [{"type": "hls"}]}]}]. *)
Definition no_file : string :=
  "{" ++ q ++ "playlist" ++ q ++ ": [{" ++ q ++ "sources" ++ q ++ ": [{"
      ++ q ++ "type" ++ q ++ ": " ++ q ++ "hls" ++ q ++ "}]}]}".

(** Extra keys, and two sources:
    [{"title": "x", "playlist": [{"mediaid": "m", "sources":
       [{"file": "https://h/a.m3u8", "type": "hls"},
        {"file": "https://h/b.m3u8?x=1"}]}]}]. *)
Definition two_sources : string :=
  "{" ++ q ++ "title" ++ q ++ ": " ++ q ++ "x" ++ q ++ ", "
      ++ q ++ "playlist" ++ q ++ ": [{" ++ q ++ "mediaid" ++ q ++ ": "
      ++ q ++ "m" ++ q ++ ", " ++ q ++ "sources" ++ q ++ ": [{"
      ++ q ++ "file" ++ q ++ ": " ++ q ++ "https://h/a.m3u8" ++ q ++ ", "
      ++ q ++ "type" ++ q ++ ": " ++ q ++ "hls" ++ q ++ "}, {"
      ++ q ++ "file" ++ q ++ ": " ++ q ++ "https://h/b.m3u8?x=1" ++ q
      ++ "}]}]}".

End Fixture.

(* ===================================================================== *)
(** * Vocabulary of the properties                                       *)
(* ===================================================================== *)

Module Response.
Import Py PickleballTV.

(** The host answers the GET of the endpoint with [body], and [body]
    decodes to [doc]. *)
Definition serves {T} (host : Host T) (body : string) (doc : value) : Prop :=
  request_text host endpoint = Ok body /\ json_loads host body = Some doc.

(** [playlist[0].sources[0].file] of a decoded response. *)
Definition manifest_url (doc : value) : result value :=
  bind (getitem_str doc "playlist") first_file.

(** The records a run adds to the log. *)
Definition debug_playlist (playlist : value) : log_record :=
  mkRecord DEBUG "playlist: " (Some playlist).

Definition info_video_url (video_url : value) : log_record :=
  mkRecord INFO "Using video_url: " (Some video_url).

Definition warn_not_found : log_record :=
  mkRecord WARNING "Could not find video_url" None.

(** What [return HLSStream.parse_variant_playlist(...)] returns or
    raises. *)
Definition delegated {T} (r : result T) : result (option T) :=
  match r with
  | Ok streams => Ok (Some streams)
  | Raise e => Raise e
  end.

(** What schema validation guarantees of a value it let through. *)
Definition accepted_url {T} (host : Host T) (v : value) : Prop :=
  exists s parsed,
    v = VStr s /\
    Urllib.urlparse (bracketed_host_ok host) s = Ok parsed /\
    Urllib.netloc parsed <> "" /\
    Py.endswith (Urllib.path parsed) ".m3u8" = true.

Definition accepted_source {T} (host : Host T) (v : value) : Prop :=
  exists file, v = VDict [("file", file)] /\ accepted_url host file.

Definition accepted_entry {T} (host : Host T) (v : value) : Prop :=
  exists sources,
    v = VDict [("sources", VList sources)] /\
    Forall (accepted_source host) sources.

Definition accepted_playlist {T} (host : Host T) (v : value) : Prop :=
  exists entries, v = VList entries /\ Forall (accepted_entry host) entries.

End Response.

(* ===================================================================== *)
(** * Properties of the library layers                                   *)
(* ===================================================================== *)

Import Py PickleballTV Response.

(** The string methods and [urlparse], on inputs whose results were read
    off CPython. *)
Example endswith_suffix : Py.endswith "/a.m3u8" ".m3u8" = true.
Proof. reflexivity. Qed.

Example endswith_empty_suffix : Py.endswith "abc" "" = true.
Proof. reflexivity. Qed.

Example endswith_longer_suffix : Py.endswith "u8" ".m3u8" = false.
Proof. reflexivity. Qed.

Example urlparse_query :
  Urllib.urlparse Fixture.no_bracketed_host "https://h/a.m3u8?x=1#top"
  = Ok (Urllib.mkParseResult "https" "h" "/a.m3u8" "" "x=1" "top").
Proof. reflexivity. Qed.

Example urlparse_params :
  Urllib.urlparse Fixture.no_bracketed_host "http://h/a.m3u8;p"
  = Ok (Urllib.mkParseResult "http" "h" "/a.m3u8" "p" "" "").
Proof. reflexivity. Qed.

Example urlparse_no_params_scheme :
  Urllib.urlparse Fixture.no_bracketed_host "a+b://h;x/p;q"
  = Ok (Urllib.mkParseResult "a+b" "h;x" "/p;q" "" "" "").
Proof. reflexivity. Qed.

Example urlparse_scheme_lowered :
  Urllib.urlparse Fixture.no_bracketed_host "  HTTP://h/a.M3U8"
  = Ok (Urllib.mkParseResult "http" "h" "/a.M3U8" "" "" "").
Proof. reflexivity. Qed.

Example urlparse_no_netloc :
  Urllib.urlparse Fixture.no_bracketed_host "x:/a//b/c.m3u8"
  = Ok (Urllib.mkParseResult "x" "" "/a//b/c.m3u8" "" "" "").
Proof. reflexivity. Qed.

Example urlparse_not_a_scheme :
  Urllib.urlparse Fixture.no_bracketed_host "1a://h/p"
  = Ok (Urllib.mkParseResult "" "" "1a://h/p" "" "" "").
Proof. reflexivity. Qed.

Example urlparse_unbalanced_bracket :
  Urllib.urlparse Fixture.no_bracketed_host "http://[::1/a" = Raise ValueError.
Proof. reflexivity. Qed.

Example urlparse_port_after_bracket :
  Urllib.urlparse (fun h => h =? "::1") "http://u@[::1]:80/a"
  = Ok (Urllib.mkParseResult "http" "u@[::1]:80" "/a" "" "" "").
Proof. reflexivity. Qed.

(** The decoder of the fixture on its documents. *)
Example loads_document :
  Fixture.loads (Fixture.document "https://h/a.m3u8")
  = Some (Fixture.decoded "https://h/a.m3u8").
Proof. reflexivity. Qed.

Example loads_empty_playlist :
  Fixture.loads Fixture.empty_playlist = Some (VDict [("playlist", VList [])]).
Proof. reflexivity. Qed.

Example loads_scalars :
  Fixture.loads "[1, -20, 0, true, false, null, [], {}]"
  = Some (VList [VInt 1; VInt (-20); VInt 0; VBool true; VBool false; VNone;
                 VList []; VDict []]).
Proof. reflexivity. Qed.

Example loads_html : Fixture.loads "<html>" = None.
Proof. reflexivity. Qed.

Example loads_trailing_comma : Fixture.loads "[1,]" = None.
Proof. reflexivity. Qed.

Section ValidateFacts.

Import Validate.

Lemma bind_Ok {A B} (m : result A) (k : A -> result B) (b : B) :
  bind m k = Ok b -> exists a, m = Ok a /\ k a = Ok b.
Proof.
  destruct m as [a | e]; simpl; intros H; [eauto | discriminate].
Qed.

Lemma with_context_Ok {A} ctx (r : result A) (a : A) :
  with_context ctx r = Ok a -> r = Ok a.
Proof.
  destruct r as [x | [e | f | | | | ]]; simpl; congruence.
Qed.

Lemma with_context_raised {A} ctx (r : result A) :
  raised (with_context ctx r) = raised r.
Proof.
  destruct r as [x | [e | f | | | | ]]; reflexivity.
Qed.

Lemma raised_true {A} (r : result A) :
  raised r = true -> exists e, r = Raise e.
Proof.
  destruct r; simpl; intros H; [discriminate | eauto].
Qed.

Lemma raised_bind {A B} (m : result A) (k : A -> result B) :
  raised m = true -> raised (bind m k) = true.
Proof.
  destruct m; simpl; congruence.
Qed.

(** An [AnySchema] of one alternative accepts what the alternative
    accepts, and returns what it returns. *)
Lemma validate_any_single_Ok (schema : validator) x y :
  validate_any [schema] x = Ok y <-> schema x = Ok y.
Proof.
  unfold validate_any; simpl.
  destruct (schema x) as [a | [e | f | | | | ]]; simpl; split; congruence.
Qed.

Lemma validate_any_single_raised (schema : validator) x :
  raised (validate_any [schema] x) = raised (schema x).
Proof.
  unfold validate_any; simpl.
  destruct (schema x) as [a | [e | f | | | | ]]; reflexivity.
Qed.

(** [map_result] succeeds exactly when [f] succeeds on every element. *)
Lemma map_result_Ok {A B} (f : A -> result B) l l' :
  map_result f l = Ok l' <-> Forall2 (fun x y => f x = Ok y) l l'.
Proof.
  revert l'; induction l as [| x l IH]; intros l'; simpl.
  - split; intros H; [injection H as <-; constructor | inversion H; reflexivity].
  - split.
    + intros H. apply bind_Ok in H as (y & Hy & H).
      apply bind_Ok in H as (ys & Hys & H). injection H as <-.
      constructor; [assumption | now apply IH].
    + intros H. inversion H as [| ? y ? ys Hy Hys]; subst.
      rewrite Hy; simpl. apply IH in Hys. rewrite Hys. reflexivity.
Qed.

Lemma map_result_raised {A B} (f : A -> result B) l x :
  In x l -> raised (f x) = true -> raised (map_result f l) = true.
Proof.
  induction l as [| a l IH]; simpl; [contradiction |].
  intros [-> | Hin] Hx.
  - now apply raised_bind.
  - destruct (f a); simpl; [| reflexivity].
    specialize (IH Hin Hx). destruct (map_result f l); simpl in *; congruence.
Qed.

(** A list schema accepts a list when its element schema accepts every
    element; the empty list is accepted. *)
Lemma validate_list_Ok (schema : validator) v v' :
  validate_list [schema] v = Ok v' <->
  exists l l', v = VList l /\ v' = VList l' /\
               Forall2 (fun x y => schema x = Ok y) l l'.
Proof.
  unfold validate_list, validate_type. split.
  - destruct v; simpl; try discriminate.
    intros H. apply bind_Ok in H as (new & Hnew & H). injection H as <-.
    exists items, new. repeat split.
    apply map_result_Ok in Hnew.
    eapply Forall2_impl; [| exact Hnew].
    intros a b; apply validate_any_single_Ok.
  - intros (l & l' & -> & -> & H). simpl.
    assert (Hm : map_result (validate_any [schema]) l = Ok l').
    { apply map_result_Ok. eapply Forall2_impl; [| exact H].
      intros a b; apply validate_any_single_Ok. }
    rewrite Hm. reflexivity.
Qed.

Lemma validate_list_raised (schema : validator) l x :
  In x l -> raised (schema x) = true ->
  raised (validate_list [schema] (VList l)) = true.
Proof.
  intros Hin Hx. unfold validate_list; simpl.
  apply raised_bind. apply map_result_raised with (x := x); [assumption |].
  now rewrite validate_any_single_raised.
Qed.

(** A dict schema with one key. *)
Lemma validate_dict_Ok key (schema : validator) v v' :
  validate_dict [(key, schema)] v = Ok v' <->
  exists d x y, v = VDict d /\ dict_get d key = Some x /\
                schema x = Ok y /\ v' = VDict [(key, y)].
Proof.
  unfold validate_dict, validate_type. split.
  - destruct v; simpl; try discriminate.
    destruct (dict_get items key) as [x |] eqn:Hget; simpl; [| discriminate].
    intros H. apply bind_Ok in H as (new & Hnew & H). injection H as <-.
    apply bind_Ok in Hnew as (y & Hy & Hnew). injection Hnew as <-.
    apply with_context_Ok in Hy. exists items, x, y. auto.
  - intros (d & x & y & -> & Hget & Hy & ->). simpl.
    rewrite Hget, Hy. reflexivity.
Qed.

Lemma validate_dict_raised key (schema : validator) d x :
  dict_get d key = Some x -> raised (schema x) = true ->
  raised (validate_dict [(key, schema)] (VDict d)) = true.
Proof.
  intros Hget Hx. unfold validate_dict; simpl. rewrite Hget.
  apply raised_bind, raised_bind. now rewrite with_context_raised.
Qed.

End ValidateFacts.

Section SchemaFacts.

Import Validate.

Context {T : Type} (host : Host T).

(** [urlparse] finds no network location in the empty string. *)
Lemma urlparse_empty ok :
  Urllib.urlparse ok "" = Ok (Urllib.mkParseResult "" "" "" "" "" "").
Proof. reflexivity. Qed.

(** What [validate.url(path=validate.endswith(".m3u8"))] lets through, it
    returns as it is: a string in which [urlparse] finds a network location
    and a path that ends in ".m3u8". *)
Lemma file_schema_Ok x y :
  file_schema host x = Ok y -> y = x /\ accepted_url host x.
Proof.
  unfold file_schema, validate_callable, url, validate_type.
  destruct x; simpl; try discriminate.
  destruct (Urllib.urlparse (bracketed_host_ok host) s) as [parsed | e] eqn:Hp;
    simpl; [| discriminate].
  destruct (Urllib.netloc parsed =? "") eqn:Hn; simpl; [discriminate |].
  unfold Urllib.getattr, Validate.endswith; simpl.
  destruct (Py.endswith (Urllib.path parsed) ".m3u8") eqn:He; simpl;
    [| discriminate].
  intros H; injection H as <-. split; [reflexivity |].
  exists s, parsed. repeat split; try assumption.
  now apply String.eqb_neq.
Qed.

Lemma accepted_url_nonempty x :
  accepted_url host x -> exists s, x = VStr s /\ s <> "".
Proof.
  intros (s & parsed & -> & Hp & Hn & _). exists s; split; [reflexivity |].
  intros ->. rewrite urlparse_empty in Hp. injection Hp as <-.
  now apply Hn.
Qed.

(** The empty string is refused with a validation error. *)
Lemma file_schema_empty :
  file_schema host (VStr "") = Raise (ValidationError (NotAUrl "")).
Proof. reflexivity. Qed.

(** A string whose path does not end in ".m3u8" is refused with a
    validation error, whether or not it has a network location. *)
Lemma file_schema_path s parsed :
  Urllib.urlparse (bracketed_host_ok host) s = Ok parsed ->
  Py.endswith (Urllib.path parsed) ".m3u8" = false ->
  exists e, file_schema host (VStr s) = Raise (ValidationError e).
Proof.
  intros Hp He.
  unfold file_schema, validate_callable, url, validate_type; simpl.
  rewrite Hp; simpl.
  destruct (Urllib.netloc parsed =? ""); simpl; [eauto |].
  unfold Urllib.getattr, Validate.endswith; simpl. rewrite He; simpl. eauto.
Qed.

Lemma source_schema_Ok x y :
  source_schema host x = Ok y ->
  exists d file, x = VDict d /\ dict_get d "file" = Some file /\
                 y = VDict [("file", file)] /\ accepted_url host file.
Proof.
  intros H. apply validate_dict_Ok in H as (d & file & y' & -> & Hget & Hy & ->).
  apply file_schema_Ok in Hy as [-> Hacc]. exists d, file. auto.
Qed.

Lemma entry_schema_Ok x y :
  entry_schema host x = Ok y ->
  exists d sources sources',
    x = VDict d /\ dict_get d "sources" = Some (VList sources) /\
    y = VDict [("sources", VList sources')] /\
    Forall2 (fun a b => source_schema host a = Ok b) sources sources'.
Proof.
  intros H. apply validate_dict_Ok in H as (d & v & v' & -> & Hget & Hv & ->).
  apply validate_list_Ok in Hv as (l & l' & -> & -> & Hall).
  exists d, l, l'. auto.
Qed.

Lemma document_schema_Ok x y :
  document_schema host x = Ok y ->
  exists d entries entries',
    x = VDict d /\ dict_get d "playlist" = Some (VList entries) /\
    y = VDict [("playlist", VList entries')] /\
    Forall2 (fun a b => entry_schema host a = Ok b) entries entries'.
Proof.
  intros H. apply validate_dict_Ok in H as (d & v & v' & -> & Hget & Hv & ->).
  apply validate_list_Ok in Hv as (l & l' & -> & -> & Hall).
  exists d, l, l'. auto.
Qed.


(** The whole schema, as [http.get] applies it to the response text. *)
Lemma Schema_validate_eq text :
  Schema_validate (schema host) (VStr text) =
  match json_loads host text with
  | None => Raise ParseError
  | Some doc =>
      match document_schema host doc with
      | Ok (VDict new) =>
          match dict_get new "playlist" with
          | Some playlist => Ok playlist
          | None => Ok VNone
          end
      | Ok validated =>
          Raise (PluginError
                   (UnableToValidate (CouldNotGetKey "playlist" validated)))
      | Raise (ValidationError e) => Raise (PluginError (UnableToValidate e))
      | Raise other => Raise other
      end
  end.
Proof.
  unfold Schema_validate, schema, validate_all, parse_json; simpl.
  destruct (json_loads host text) as [doc |]; simpl; [| reflexivity].
  destruct (document_schema host doc) as [v | [e | f | | | | ]]; simpl;
    try reflexivity.
  unfold validate_get, getitem_str.
  destruct v; simpl; try reflexivity.
  destruct (dict_get items "playlist"); reflexivity.
Qed.

Lemma Schema_validate_Ok text playlist :
  Schema_validate (schema host) (VStr text) = Ok playlist ->
  exists d entries entries',
    json_loads host text = Some (VDict d) /\
    dict_get d "playlist" = Some (VList entries) /\
    playlist = VList entries' /\
    Forall2 (fun a b => entry_schema host a = Ok b) entries entries'.
Proof.
  rewrite Schema_validate_eq.
  destruct (json_loads host text) as [doc |]; [| discriminate].
  destruct (document_schema host doc) as [v | e] eqn:Hdoc.
  - apply document_schema_Ok in Hdoc
      as (d & entries & entries' & -> & Hget & -> & Hall).
    simpl. intros H; injection H as <-. exists d, entries, entries'. auto.
  - destruct e; discriminate.
Qed.

(** Everything in a playlist that passed validation has the accepted
    shape. *)
Lemma Schema_validate_accepted text playlist :
  Schema_validate (schema host) (VStr text) = Ok playlist ->
  accepted_playlist host playlist.
Proof.
  intros H. apply Schema_validate_Ok in H
    as (d & entries & entries' & _ & _ & -> & Hall).
  exists entries'; split; [reflexivity |].
  induction Hall as [| a b l l' Hab _ IH]; constructor; [| exact IH].
  apply entry_schema_Ok in Hab as (da & srcs & srcs' & _ & _ & -> & Hsrc).
  exists srcs'; split; [reflexivity |].
  clear -Hsrc. induction Hsrc as [| a b l l' Hab _ IH]; constructor;
    [| exact IH].
  apply source_schema_Ok in Hab as (ds & file & _ & _ & -> & Hacc).
  exists file; auto.
Qed.

(** The first file of an accepted playlist is an accepted URL. *)
Lemma first_file_accepted playlist video_url :
  accepted_playlist host playlist ->
  first_file playlist = Ok video_url ->
  accepted_url host video_url.
Proof.
  intros (entries & -> & Hall) H.
  destruct Hall as [| entry entries' (sources & -> & Hsrc) _];
    [discriminate |].
  destruct Hsrc as [| source sources' (file & -> & Hacc) _];
    [discriminate |].
  injection H as <-. exact Hacc.
Qed.

End SchemaFacts.

(* ===================================================================== *)
(** * Properties of a run                                                *)
(* ===================================================================== *)

Section RunFacts.

Import Validate.

Context {T : Type} (host : Host T).

(** The method, case by case. *)
Lemma get_streams_eq log :
  _get_streams host log =
  match http_get host endpoint (schema host) with
  | Raise e => (Raise e, log)
  | Ok playlist =>
      let log1 := (log ++ [debug_playlist playlist])%list in
      match first_file playlist with
      | Raise e => (Raise e, log1)
      | Ok video_url =>
          if truthy video_url
          then (delegated (parse_variant_playlist host video_url),
                (log1 ++ [info_video_url video_url])%list)
          else (Ok None, (log1 ++ [warn_not_found])%list)
      end
  end.
Proof.
  unfold _get_streams, mbind, lift, log_debug, log_info, log_warn, emit, ret.
  destruct (http_get host endpoint (schema host)) as [playlist | e];
    [| reflexivity].
  cbn zeta. destruct (first_file playlist) as [video_url | e]; [| reflexivity].
  destruct (truthy video_url); simpl; [| reflexivity].
  destruct (parse_variant_playlist host video_url); reflexivity.
Qed.

Lemma http_get_serves body doc :
  serves host body doc ->
  http_get host endpoint (schema host) =
  Schema_validate (schema host) (VStr body).
Proof. intros [Hreq _]. unfold http_get. rewrite Hreq. reflexivity. Qed.

(** A response has a first file only when it is a dict whose playlist is a
    list that starts with a dict whose sources are a list that starts with
    a dict that has the key. *)
Lemma manifest_url_inv doc file :
  manifest_url doc = Ok file ->
  exists d de es ds ss,
    doc = VDict d /\
    dict_get d "playlist" = Some (VList (VDict de :: es)) /\
    dict_get de "sources" = Some (VList (VDict ds :: ss)) /\
    dict_get ds "file" = Some file.
Proof.
  unfold manifest_url, first_file.
  destruct doc as [| | | | | | d]; simpl; try discriminate.
  destruct (dict_get d "playlist") as [pl |] eqn:Hpl; simpl; [| discriminate].
  intros H. apply bind_Ok in H as (entry & Hentry & H).
  apply bind_Ok in H as (sources & Hsources & H).
  apply bind_Ok in H as (source & Hsource & H).
  destruct source as [| | | | | | ds]; simpl in H; try discriminate.
  destruct (dict_get ds "file") as [f |] eqn:Hf; [| discriminate].
  injection H as ->.
  destruct entry as [| | | | | | de]; simpl in Hsources; try discriminate.
  destruct (dict_get de "sources") as [srcs |] eqn:Hs; [| discriminate].
  injection Hsources as ->.
  assert (Hlist : forall v x, getitem_int v 0 = Ok (VDict x) ->
                    exists l, v = VList (VDict x :: l)).
  { intros v x Hv. destruct v as [| | | | s | l |]; simpl in Hv;
      try discriminate.
    - destruct s; simpl in Hv; discriminate.
    - destruct l as [| a l]; simpl in Hv; [discriminate |].
      injection Hv as ->. eauto. }
  apply Hlist in Hentry as (es & ->). apply Hlist in Hsource as (ss & ->).
  exists d, de, es, ds, ss. auto.
Qed.


(** How a validation error travels up from the first file. *)
Lemma validate_dict_error key (sub : validator) d x e :
  dict_get d key = Some x ->
  sub x = Raise (ValidationError e) ->
  validate_dict [(key, sub)] (VDict d) =
  Raise (ValidationError (KeyValue key e)).
Proof.
  intros Hget Hx. unfold validate_dict; simpl. rewrite Hget, Hx. reflexivity.
Qed.

Lemma validate_list_head_error (sub : validator) x l e :
  sub x = Raise (ValidationError e) ->
  validate_list [sub] (VList (x :: l)) = Raise (ValidationError (AnyOf [e])).
Proof.
  intros Hx. unfold validate_list, validate_any; simpl. rewrite Hx.
  reflexivity.
Qed.

Lemma first_file_refused body doc file e log :
  serves host body doc ->
  manifest_url doc = Ok file ->
  file_schema host file = Raise (ValidationError e) ->
  _get_streams host log =
  (Raise (PluginError (UnableToValidate
     (KeyValue "playlist" (AnyOf [KeyValue "sources"
        (AnyOf [KeyValue "file" e])])))), log).
Proof.
  intros Hserves Hfile He.
  apply manifest_url_inv in Hfile as (d & de & es & ds & ss & -> & Hpl & Hs & Hf).
  rewrite get_streams_eq, (http_get_serves _ _ Hserves), Schema_validate_eq.
  destruct Hserves as [_ ->].
  assert (Hdoc : document_schema host (VDict d) =
                 Raise (ValidationError
                   (KeyValue "playlist" (AnyOf [KeyValue "sources"
                      (AnyOf [KeyValue "file" e])])))).
  { apply validate_dict_error with (x := VList (VDict de :: es));
      [assumption |].
    apply validate_list_head_error.
    apply validate_dict_error with (x := VList (VDict ds :: ss));
      [assumption |].
    apply validate_list_head_error.
    now apply validate_dict_error with (x := file). }
  rewrite Hdoc. reflexivity.
Qed.

(** A response whose playlist is the empty list passes validation, and the
    method then indexes into it. *)
Lemma empty_playlist_IndexError body d log :
  serves host body (VDict d) ->
  dict_get d "playlist" = Some (VList []) ->
  _get_streams host log =
  (Raise IndexError, (log ++ [debug_playlist (VList [])])%list).
Proof.
  intros Hserves Hpl.
  rewrite get_streams_eq, (http_get_serves _ _ Hserves), Schema_validate_eq.
  destruct Hserves as [_ ->].
  assert (Hdoc : document_schema host (VDict d) =
                 Ok (VDict [("playlist", VList [])])).
  { apply validate_dict_Ok. exists d, (VList []), (VList []).
    repeat split; try assumption. }
  rewrite Hdoc. reflexivity.
Qed.

(** The same when the sources of the first entry are the empty list and
    the other entries are accepted. *)
Lemma empty_sources_IndexError body d de es es' log :
  serves host body (VDict d) ->
  dict_get d "playlist" = Some (VList (VDict de :: es)) ->
  dict_get de "sources" = Some (VList []) ->
  Forall2 (fun a b => entry_schema host a = Ok b) es es' ->
  _get_streams host log =
  (Raise IndexError,
   (log ++ [debug_playlist
              (VList (VDict [("sources", VList [])] :: es'))])%list).
Proof.
  intros Hserves Hpl Hsrc Hall.
  rewrite get_streams_eq, (http_get_serves _ _ Hserves), Schema_validate_eq.
  destruct Hserves as [_ ->].
  assert (Hdoc : document_schema host (VDict d) =
                 Ok (VDict [("playlist",
                      VList (VDict [("sources", VList [])] :: es'))])).
  { apply validate_dict_Ok.
    exists d, (VList (VDict de :: es)),
      (VList (VDict [("sources", VList [])] :: es')).
    repeat split; try assumption.
    apply validate_list_Ok. do 2 eexists. repeat split.
    constructor; [| assumption].
    apply validate_dict_Ok. exists de, (VList []), (VList []).
    repeat split; assumption. }
  rewrite Hdoc. reflexivity.
Qed.

(** An element that its schema refuses makes the whole document fail. *)
Lemma entry_refused_raises body d entries entry log :
  serves host body (VDict d) ->
  dict_get d "playlist" = Some (VList entries) ->
  In entry entries ->
  raised (entry_schema host entry) = true ->
  exists e, _get_streams host log = (Raise e, log).
Proof.
  intros Hserves Hpl Hin Hraised.
  rewrite get_streams_eq, (http_get_serves _ _ Hserves), Schema_validate_eq.
  destruct Hserves as [_ ->].
  assert (Hdoc : raised (document_schema host (VDict d)) = true).
  { apply validate_dict_raised with (x := VList entries); [assumption |].
    now apply validate_list_raised with (x := entry). }
  apply raised_true in Hdoc as (e & ->).
  destruct e; eauto.
Qed.

Lemma source_refused_entry_refused de sources source :
  dict_get de "sources" = Some (VList sources) ->
  In source sources ->
  raised (source_schema host source) = true ->
  raised (entry_schema host (VDict de)) = true.
Proof.
  intros Hget Hin Hraised.
  apply validate_dict_raised with (x := VList sources); [assumption |].
  now apply validate_list_raised with (x := source).
Qed.

End RunFacts.

(* ===================================================================== *)
(** * The claims                                                         *)
(* ===================================================================== *)

Lemma accepted_url_truthy {T} (host : Host T) v :
  accepted_url host v -> truthy v = true.
Proof.
  intros H. apply accepted_url_nonempty in H as (s & -> & Hs). simpl.
  apply String.eqb_neq in Hs. now rewrite Hs.
Qed.

(** The warning branch is dead code: no run returns [None]. *)
Lemma get_streams_never_None {T} (host : Host T) log :
  fst (_get_streams host log) <> Ok None.
Proof.
  rewrite get_streams_eq. unfold http_get.
  destruct (request_text host endpoint) as [text | e]; simpl; [| discriminate].
  destruct (Validate.Schema_validate (schema host) (VStr text))
    as [playlist | e] eqn:Hv; [| discriminate].
  destruct (first_file playlist) as [video_url | e] eqn:Hf; [| discriminate].
  apply Schema_validate_accepted in Hv.
  rewrite (accepted_url_truthy host _ (first_file_accepted host _ _ Hv Hf)).
  simpl. destruct (parse_variant_playlist host video_url); discriminate.
Qed.



(** C2, as the code has it.  The claim says that a response whose
    playlist[0].sources[0].file is the empty string yields an empty stream
    set without an error.  At such a response the method raises: the schema
    refuses the empty string before the method looks at it. *)
Lemma C2_counterexample :
  Fixture.loads (Fixture.document "") = Some (Fixture.decoded "") /\
  manifest_url (Fixture.decoded "") = Ok (VStr "") /\
  _get_streams (Fixture.host (Fixture.document "")) [] =
  (Raise (PluginError (UnableToValidate
     (KeyValue "playlist" (AnyOf [KeyValue "sources"
        (AnyOf [KeyValue "file" (NotAUrl "")])])))), []).
Proof. repeat split; reflexivity. Qed.

(** C2 (amended). For every response in which playlist[0].sources[0].file
    is the empty string, resolution fails with SchemaError: [validate.url]
    finds no network location in it.  Nothing is logged and no stream set
    is returned. *)
Theorem C2_empty_file_is_a_schema_error {T} (host : Host T) body doc log :
  serves host body doc ->
  manifest_url doc = Ok (VStr "") ->
  exists e, _get_streams host log = (Raise e, log) /\ is_SchemaError e = true.
Proof.
  intros Hserves Hfile.
  eexists; split.
  - apply (first_file_refused host body doc (VStr ""));
      [assumption | assumption |].
    apply file_schema_empty.
  - reflexivity.
Qed.

Lemma C2_witness :
  exists e,
    _get_streams (Fixture.host (Fixture.document "")) [] = (Raise e, []) /\
    is_SchemaError e = true.
Proof.
  apply (C2_empty_file_is_a_schema_error
           (Fixture.host (Fixture.document ""))
           (Fixture.document "") (Fixture.decoded "")).
  - split; reflexivity.
  - reflexivity.
Defined.

(** C3, evaluated.  The claim says that an empty "playlist" or "sources"
    sequence fails with SchemaError and never with an indexing error.  The
    list schema accepts an empty list, so [{"playlist": []}] and
    [{"playlist": [{"sources": []}]}] pass validation and [playlist[0]],
    respectively [sources[0]], raises IndexError; an entry with empty
    sources after a valid first entry does not fail at all. *)
Theorem C3_empty_sequence_IndexError :
  _get_streams (Fixture.host Fixture.empty_playlist) [] =
    (Raise IndexError, [debug_playlist (VList [])]) /\
  _get_streams (Fixture.host Fixture.empty_sources) [] =
    (Raise IndexError,
     [debug_playlist (VList [VDict [("sources", VList [])]])]) /\
  fst (_get_streams (Fixture.host Fixture.later_entry_empty) []) =
    Ok (Some [("live", VStr "https://h/a.m3u8")]).
Proof. repeat split; reflexivity. Qed.

(** C4, as the code has it.  The claim says that every accepted Manifest
    URL is an absolute URL whose string ends in ".m3u8".  The schema tests
    the path that [urlparse] finds, not the string, and asks for no scheme:
    a URL with a query string is accepted and handed to the parser, and so
    is a scheme-relative one. *)
Lemma C4_counterexample :
  fst (_get_streams (Fixture.host (Fixture.document "https://h/a.m3u8?x=1")) [])
    = Ok (Some [("live", VStr "https://h/a.m3u8?x=1")]) /\
  Py.endswith "https://h/a.m3u8?x=1" ".m3u8" = false /\
  fst (_get_streams (Fixture.host (Fixture.document "//h/a.m3u8")) [])
    = Ok (Some [("live", VStr "//h/a.m3u8")]) /\
  Urllib.urlparse Fixture.no_bracketed_host "//h/a.m3u8"
    = Ok (Urllib.mkParseResult "" "h" "/a.m3u8" "" "" "").
Proof. repeat split; reflexivity. Qed.

(** C4 (amended). Every Manifest URL accepted by schema validation, and so
    every URL handed to the HLS parser, is a string in which [urlparse]
    finds a non-empty network location and a path component that ends in
    the literal suffix ".m3u8"; a query string or a fragment may follow the
    path, and no scheme is required. *)
Theorem C4_accepted_url_has_netloc_and_m3u8_path {T} (host : Host T)
    text playlist url :
  Validate.Schema_validate (schema host) (VStr text) = Ok playlist ->
  first_file playlist = Ok url ->
  exists s parsed,
    url = VStr s /\
    Urllib.urlparse (bracketed_host_ok host) s = Ok parsed /\
    Urllib.netloc parsed <> "" /\
    Py.endswith (Urllib.path parsed) ".m3u8" = true.
Proof.
  intros Hv Hf.
  apply (first_file_accepted host playlist url); [| assumption].
  now apply (Schema_validate_accepted host text).
Qed.

Lemma C4_witness :
  exists s parsed,
    VStr "https://h/a.m3u8?x=1" = VStr s /\
    Urllib.urlparse Fixture.no_bracketed_host s = Ok parsed /\
    Urllib.netloc parsed <> "" /\
    Py.endswith (Urllib.path parsed) ".m3u8" = true.
Proof.
  apply (C4_accepted_url_has_netloc_and_m3u8_path
           (Fixture.host (Fixture.document "https://h/a.m3u8?x=1"))
           (Fixture.document "https://h/a.m3u8?x=1")
           (VList [VDict [("sources",
              VList [VDict [("file", VStr "https://h/a.m3u8?x=1")]])]])).
  - reflexivity.
  - reflexivity.
Defined.

(** C5, as the code has it.  The claim says that a "file" URL that does not
    end in ".m3u8" fails schema validation.  A URL whose path ends in
    ".m3u8" and that goes on with a query string does not end in ".m3u8",
    and resolution succeeds. *)
Lemma C5_counterexample :
  Py.endswith "https://cdn.example.com/live/master.m3u8?token=abc" ".m3u8"
    = false /\
  _get_streams
    (Fixture.host
       (Fixture.document "https://cdn.example.com/live/master.m3u8?token=abc"))
    [] =
  (Ok (Some [("live",
              VStr "https://cdn.example.com/live/master.m3u8?token=abc")]),
   [debug_playlist
      (VList [VDict [("sources", VList [VDict [("file",
         VStr "https://cdn.example.com/live/master.m3u8?token=abc")]])]]);
    info_video_url
      (VStr "https://cdn.example.com/live/master.m3u8?token=abc")]).
Proof. split; reflexivity. Qed.

(** C5 (amended). For every response whose playlist[0].sources[0].file is a
    string in which [urlparse] finds a path component that does not end in
    ".m3u8" (for example "https://example.com/video.mp4"), schema
    validation fails and resolution fails with SchemaError. *)
Theorem C5_path_without_m3u8_is_a_schema_error {T} (host : Host T)
    body doc s parsed log :
  serves host body doc ->
  manifest_url doc = Ok (VStr s) ->
  Urllib.urlparse (bracketed_host_ok host) s = Ok parsed ->
  Py.endswith (Urllib.path parsed) ".m3u8" = false ->
  exists e, _get_streams host log = (Raise e, log) /\ is_SchemaError e = true.
Proof.
  intros Hserves Hfile Hparsed Hpath.
  destruct (file_schema_path host s parsed Hparsed Hpath) as (e & He).
  eexists; split.
  - now apply (first_file_refused host body doc (VStr s) e).
  - reflexivity.
Qed.

Lemma C5_witness :
  exists e,
    _get_streams
      (Fixture.host (Fixture.document "https://example.com/video.mp4")) []
    = (Raise e, []) /\
    is_SchemaError e = true.
Proof.
  apply (C5_path_without_m3u8_is_a_schema_error
           (Fixture.host (Fixture.document "https://example.com/video.mp4"))
           (Fixture.document "https://example.com/video.mp4")
           (Fixture.decoded "https://example.com/video.mp4")
           "https://example.com/video.mp4"
           (Urllib.mkParseResult "https" "example.com" "/video.mp4" "" "" "")).
  - split; reflexivity.
  - reflexivity.
  - reflexivity.
  - reflexivity.
Defined.

(** C6. For every response that decodes to a mapping without the key
    "playlist", resolution fails with SchemaError; the error names the
    missing key. *)
Theorem C6_missing_playlist_is_a_schema_error {T} (host : Host T)
    body d log :
  serves host body (VDict d) ->
  dict_get d "playlist" = None ->
  _get_streams host log =
    (Raise (PluginError
              (UnableToValidate (KeyNotFound "playlist" (VDict d)))), log) /\
  is_SchemaError
    (PluginError (UnableToValidate (KeyNotFound "playlist" (VDict d)))) = true.
Proof.
  intros Hserves Hget. split; [| reflexivity].
  rewrite get_streams_eq, (http_get_serves _ _ _ Hserves), Schema_validate_eq.
  destruct Hserves as [_ ->].
  unfold document_schema, Validate.validate_dict; simpl. rewrite Hget.
  reflexivity.
Qed.

Lemma C6_witness :
  _get_streams (Fixture.host Fixture.no_playlist) [] =
    (Raise (PluginError (UnableToValidate
       (KeyNotFound "playlist" (VDict [("title", VStr "x")])))), []) /\
  is_SchemaError
    (PluginError (UnableToValidate
       (KeyNotFound "playlist" (VDict [("title", VStr "x")])))) = true.
Proof.
  apply (C6_missing_playlist_is_a_schema_error
           (Fixture.host Fixture.no_playlist) Fixture.no_playlist
           [("title", VStr "x")]).
  - split; reflexivity.
  - reflexivity.
Defined.




(** C9. When schema validation has succeeded, the extracted [video_url] is
    a non-empty string, hence true in a condition; the branch that warns
    and returns no streams is never taken: no run returns [None]. *)
Theorem C9_falsy_branch_unreachable {T} (host : Host T)
    text playlist video_url :
  Validate.Schema_validate (schema host) (VStr text) = Ok playlist ->
  first_file playlist = Ok video_url ->
  (exists s, video_url = VStr s /\ s <> "") /\
  truthy video_url = true /\
  (forall log, fst (_get_streams host log) <> Ok None).
Proof.
  intros Hv Hf.
  assert (Hacc : accepted_url host video_url).
  { apply (first_file_accepted host playlist); [| assumption].
    now apply (Schema_validate_accepted host text). }
  repeat split.
  - now apply (accepted_url_nonempty host).
  - now apply (accepted_url_truthy host).
  - intros log. apply get_streams_never_None.
Qed.

Lemma C9_witness :
  (exists s, VStr "https://h/a.m3u8" = VStr s /\ s <> "") /\
  truthy (VStr "https://h/a.m3u8") = true /\
  (forall log,
     fst (_get_streams (Fixture.host (Fixture.document "https://h/a.m3u8")) log)
     <> Ok None).
Proof.
  apply (C9_falsy_branch_unreachable
           (Fixture.host (Fixture.document "https://h/a.m3u8"))
           (Fixture.document "https://h/a.m3u8")
           (VList [VDict [("sources",
              VList [VDict [("file", VStr "https://h/a.m3u8")]])]])).
  - reflexivity.
  - reflexivity.
Defined.

(** C10. Validation is applied to every element of the "playlist" list and
    to every element of each entry's "sources" list, not only to the first
    ones: when any playlist entry, or any source of any entry, is refused
    by its schema, resolution fails as a whole, before anything is logged,
    even if the first source is a valid ".m3u8" URL. *)
Theorem C10_every_element_is_validated {T} (host : Host T)
    body d entries entry log :
  serves host body (VDict d) ->
  dict_get d "playlist" = Some (VList entries) ->
  In entry entries ->
  raised (entry_schema host entry) = true \/
  (exists de sources source,
     entry = VDict de /\
     dict_get de "sources" = Some (VList sources) /\
     In source sources /\
     raised (source_schema host source) = true) ->
  exists e, _get_streams host log = (Raise e, log).
Proof.
  intros Hserves Hpl Hin Hbad.
  apply (entry_refused_raises host body d entries entry);
    try assumption.
  destruct Hbad as [Hentry | (de & sources & source & -> & Hs & Hin' & Hsrc)];
    [assumption |].
  now apply (source_refused_entry_refused host de sources source).
Qed.

Lemma C10_witness :
  exists e,
    _get_streams (Fixture.host Fixture.second_source_invalid) [] = (Raise e, []).
Proof.
  apply (C10_every_element_is_validated
           (Fixture.host Fixture.second_source_invalid)
           Fixture.second_source_invalid
           [("playlist", VList [VDict [("sources",
               VList [VDict [("file", VStr "https://h/a.m3u8")];
                      VDict [("file", VStr "https://h/b.mp4")]])]])]
           [VDict [("sources",
               VList [VDict [("file", VStr "https://h/a.m3u8")];
                      VDict [("file", VStr "https://h/b.mp4")]])]]
           (VDict [("sources",
               VList [VDict [("file", VStr "https://h/a.m3u8")];
                      VDict [("file", VStr "https://h/b.mp4")]])])).
  - split; reflexivity.
  - reflexivity.
  - simpl. left. reflexivity.
  - right.
    exists [("sources",
               VList [VDict [("file", VStr "https://h/a.m3u8")];
                      VDict [("file", VStr "https://h/b.mp4")]])],
      [VDict [("file", VStr "https://h/a.m3u8")];
       VDict [("file", VStr "https://h/b.mp4")]],
      (VDict [("file", VStr "https://h/b.mp4")]).
    repeat split; try reflexivity.
    simpl. right. left. reflexivity.
Defined.

(* ===================================================================== *)
(** * Further properties: strings                                        *)
(* ===================================================================== *)

Section StringFacts.

Lemma append_assoc (a b c : string) : (a ++ b) ++ c = a ++ (b ++ c).
Proof. induction a as [| x a IH]; simpl; [reflexivity | now rewrite IH]. Qed.

Lemma append_nil_r (a : string) : a ++ "" = a.
Proof. induction a as [| x a IH]; simpl; [reflexivity | now rewrite IH]. Qed.

Lemma length_append (a b : string) :
  String.length (a ++ b) = String.length a + String.length b.
Proof. induction a as [| x a IH]; simpl; [reflexivity | now rewrite IH]. Qed.

Lemma contains_append c (a b : string) :
  contains c (a ++ b) = contains c a || contains c b.
Proof.
  induction a as [| x a IH]; simpl; [reflexivity |].
  now rewrite IH, orb_assoc.
Qed.

Lemma endswith_eq s suffix :
  Py.endswith s suffix =
  if (String.length s <? String.length suffix)%nat then false
  else if s =? suffix then true
  else match s with
       | "" => false
       | String _ rest => Py.endswith rest suffix
       end.
Proof. destruct s; reflexivity. Qed.

(** [s.endswith(suffix)] holds exactly when [s] is some text followed by
    [suffix]. *)
Lemma endswith_iff s suffix :
  Py.endswith s suffix = true <-> exists pre, s = pre ++ suffix.
Proof.
  split.
  - induction s as [| a s IH]; rewrite endswith_eq.
    + destruct (String.length "" <? String.length suffix)%nat;
        [discriminate |].
      destruct (String.eqb_spec "" suffix) as [<- | _]; [| discriminate].
      intros _. now exists "".
    + destruct (String.length (String a s) <? String.length suffix)%nat;
        [discriminate |].
      destruct (String.eqb_spec (String a s) suffix) as [<- | _].
      * intros _. now exists "".
      * intros H. destruct (IH H) as (pre & ->). now exists (String a pre).
  - intros (pre & ->). induction pre as [| a pre IH].
    + simpl. rewrite endswith_eq, Nat.ltb_irrefl, String.eqb_refl.
      reflexivity.
    + rewrite endswith_eq.
      assert (Hlen : (String.length (String a pre ++ suffix)
                      <? String.length suffix)%nat = false).
      { apply Nat.ltb_ge. rewrite length_append. lia. }
      rewrite Hlen.
      destruct (String a pre ++ suffix =? suffix); [reflexivity |].
      exact IH.
Qed.

(** What [partition] and [rpartition] return, put back together, is the
    string; the text before the first occurrence has none. *)
Lemma partition_Some c s before after :
  partition c s = Some (before, after) ->
  s = before ++ String c after /\ contains c before = false.
Proof.
  revert before; induction s as [| a s IH]; intros before; simpl;
    [discriminate |].
  destruct (Ascii.eqb_spec a c) as [-> | Hne].
  - intros H; injection H as <- <-. auto.
  - destruct (partition c s) as [[b1 a1] |]; [| discriminate].
    intros H; injection H as <- <-.
    destruct (IH b1 eq_refl) as [-> Hb]. simpl.
    apply Ascii.eqb_neq in Hne. now rewrite Hne, Hb.
Qed.

Lemma partition_None c s :
  partition c s = None -> contains c s = false.
Proof.
  induction s as [| a s IH]; simpl; [reflexivity |].
  destruct (a =? c)%char; [discriminate |].
  destruct (partition c s) as [[b1 a1] |]; [discriminate |].
  intros _. now apply IH.
Qed.

Lemma rpartition_Some c s before after :
  rpartition c s = Some (before, after) -> s = before ++ String c after.
Proof.
  revert before; induction s as [| a s IH]; intros before; simpl;
    [discriminate |].
  destruct (rpartition c s) as [[b1 a1] |].
  - intros H; injection H as <- <-. now rewrite (IH b1 eq_refl).
  - destruct (Ascii.eqb_spec a c) as [-> | _]; [| discriminate].
    intros H; injection H as <- <-. reflexivity.
Qed.





Lemma contains_break_snd c p s :
  contains c s = false -> contains c (snd (break p s)) = false.
Proof.
  induction s as [| a s IH]; simpl; [reflexivity |].
  intros H. pose proof H as H'. apply orb_false_iff in H as [Ha Hs].
  destruct (p a); [exact H' |].
  destruct (break p s) as [b r]; simpl in *. now apply IH.
Qed.

(** The text before the break has no character that satisfies the test. *)
Lemma break_fst_stops c p s :
  p c = true -> contains c (fst (break p s)) = false.
Proof.
  intros Hc. induction s as [| a s IH]; simpl; [reflexivity |].
  destruct (p a) eqn:Ha; [reflexivity |].
  destruct (break p s) as [b r]; simpl in *. rewrite IH.
  destruct (Ascii.eqb_spec a c) as [-> | _]; [congruence | reflexivity].
Qed.

End StringFacts.

(* ===================================================================== *)
(** * Further properties: the plugin matcher                             *)
(* ===================================================================== *)

Section MatcherFacts.

Lemma re_match_required c r s m :
  Re.re_match (Re.mkItem c false :: r) s = Some m <->
  exists s' m', s = String c s' /\ m = String c m' /\
                Re.re_match r s' = Some m'.
Proof.
  simpl. split.
  - destruct s as [| a s]; [discriminate |].
    destruct (Ascii.eqb_spec a c) as [-> | _]; [| discriminate].
    destruct (Re.re_match r s) as [m' |] eqn:Hm; simpl; [| discriminate].
    intros H; injection H as <-. now exists s, m'.
  - intros (s' & m' & -> & -> & H). rewrite Ascii.eqb_refl, H. reflexivity.
Qed.

Lemma re_match_literal text r s m :
  Re.re_match (Re.literal text ++ r)%list s = Some m <->
  exists s' m', s = text ++ s' /\ m = text ++ m' /\
                Re.re_match r s' = Some m'.
Proof.
  revert s m; induction text as [| c text IH]; intros s m.
  - simpl (Re.literal "" ++ r)%list. split; [intros H; now exists s, m |].
    now intros (s' & m' & -> & -> & H).
  - simpl (Re.literal (String c text) ++ r)%list.
    rewrite re_match_required. split.
    + intros (s1 & m1 & -> & -> & H). apply IH in H as (s' & m' & -> & -> & H).
      exists s', m'. auto.
    + intros (s' & m' & -> & -> & H). exists (text ++ s'), (text ++ m').
      repeat split. apply IH. eauto.
Qed.

(** The compiled pattern: "http", an optional "s", "://pickleballtv.com". *)
Lemma match_url_eq url :
  PluginMatcher.match_url url =
  Re.re_match
    (Re.literal "http" ++
     Re.mkItem "s" true :: Re.literal "://pickleballtv.com" ++ [])%list url.
Proof. reflexivity. Qed.

(** A match is one of the two prefixes, and the URL begins with it. *)
Lemma match_url_sound url m :
  PluginMatcher.match_url url = Some m ->
  (m = "https://pickleballtv.com" \/ m = "http://pickleballtv.com") /\
  exists rest, url = m ++ rest.
Proof.
  rewrite match_url_eq, re_match_literal.
  intros (s1 & m1 & -> & -> & H).
  assert (Htail : forall s m,
             Re.re_match (Re.literal "://pickleballtv.com" ++ [])%list s
             = Some m ->
             m = "://pickleballtv.com" /\
             exists rest, s = "://pickleballtv.com" ++ rest).
  { intros s m H'. apply re_match_literal in H' as (s' & m' & -> & -> & H').
    injection H' as <-. split; [reflexivity | now exists s']. }
  cbn [Re.re_match Re.optional Re.char] in H.
  destruct s1 as [| a s1].
  - apply Htail in H as (_ & rest & Hrest). discriminate.
  - destruct (Ascii.eqb_spec a "s") as [-> | Hne].
    + destruct (Re.re_match (Re.literal "://pickleballtv.com" ++ [])%list s1)
        as [m' |] eqn:Hm'; simpl in H.
      * injection H as <-. apply Htail in Hm' as (-> & rest & ->).
        split; [now left | now exists rest].
      * discriminate.
    + apply Htail in H as (-> & rest & ->).
      split; [now right | now exists rest].
Qed.

(** A URL that begins with one of the two prefixes is matched. *)
Lemma match_url_complete url m :
  (m = "https://pickleballtv.com" \/ m = "http://pickleballtv.com") /\
  (exists rest, url = m ++ rest) ->
  PluginMatcher.match_url url = Some m.
Proof. intros ([-> | ->] & rest & ->); reflexivity. Qed.

End MatcherFacts.

(** X1. The plugin handles exactly the URLs that begin with
    "https://pickleballtv.com" or "http://pickleballtv.com", byte for byte
    (lower case, no "www.", nothing before the scheme); the matched text is
    that prefix. *)
Theorem X1_matcher_accepts_exactly_two_prefixes url m :
  PluginMatcher.match_url url = Some m <->
  (m = "https://pickleballtv.com" \/ m = "http://pickleballtv.com") /\
  exists rest, url = m ++ rest.
Proof.
  split.
  - apply match_url_sound.
  - apply match_url_complete.
Qed.

(** X2. The pattern has no end anchor: what follows a matched URL is not
    looked at, so a matched URL with anything appended is matched again,
    with the same matched text. *)
Theorem X2_matcher_ignores_what_follows url m extra :
  PluginMatcher.match_url url = Some m ->
  PluginMatcher.match_url (url ++ extra) = Some m.
Proof.
  intros H. apply match_url_sound in H as (Hm & rest & ->).
  apply match_url_complete. split; [assumption |].
  exists (rest ++ extra). apply append_assoc.
Qed.

Lemma X2_witness :
  PluginMatcher.match_url ("https://pickleballtv.com" ++ "/live?x=1")
  = Some "https://pickleballtv.com".
Proof.
  apply (X2_matcher_ignores_what_follows "https://pickleballtv.com").
  reflexivity.
Defined.

(** X3. [validate.endswith(suffix)] answers [True] exactly for a string
    that is some text followed by [suffix], and never answers [False]: a
    value that is not such a string makes it raise. *)
Theorem X3_endswith_true_or_raises suffix v :
  (Validate.endswith suffix v = Ok true <->
   exists pre, v = VStr (pre ++ suffix)) /\
  Validate.endswith suffix v <> Ok false.
Proof.
  unfold Validate.endswith, Validate.validate_type.
  destruct v; simpl;
    try (split; [split; [discriminate | intros (pre & H); discriminate]
                | discriminate]).
  destruct (Py.endswith s suffix) eqn:He.
  - split; [| discriminate]. split; [| reflexivity].
    intros _. apply endswith_iff in He as (pre & ->). now exists pre.
  - split; [| discriminate]. split; [discriminate |].
    intros (pre & H). injection H as ->.
    assert (Ht : Py.endswith (pre ++ suffix) suffix = true)
      by (apply endswith_iff; now exists pre).
    congruence.
Qed.

(* ===================================================================== *)
(** * Further properties: urlparse                                       *)
(* ===================================================================== *)

Section UrlparseFacts.

Lemma contains_drop_last c s :
  contains c s = false -> contains c (drop_last s) = false.
Proof.
  induction s as [| a s IH]; [reflexivity |].
  intros H. simpl in H. apply orb_false_iff in H as [Ha Hs].
  destruct s as [| b s]; [reflexivity |].
  change (drop_last (String a (String b s)))
    with (String a (drop_last (String b s))).
  simpl contains at 1. rewrite Ha. now apply IH.
Qed.



Lemma splitnetloc_delim c url :
  Urllib.netloc_delim c = true ->
  contains c (fst (Urllib._splitnetloc2 url)) = false.
Proof. intros H. now apply break_fst_stops. Qed.

Lemma splitparams_fst c url :
  contains c url = false ->
  contains c (fst (Urllib._splitparams url)) = false.
Proof.
  intros H. unfold Urllib._splitparams.
  destruct (rpartition "/" url) as [[head tail] |] eqn:Hr.
  - destruct (partition ";" tail) as [[before after] |] eqn:Hp; [| exact H].
    simpl. apply rpartition_Some in Hr. apply partition_Some in Hp as [Hp _].
    subst. cbn [fst append]. rewrite contains_append in H |- *.
    cbn [contains] in H |- *. rewrite contains_append in H.
    destruct (contains c head), ("/" =? c)%char, (contains c before);
      cbn [orb] in *; congruence.
  - destruct (partition ";" url) as [[before after] |] eqn:Hp.
    + simpl. apply partition_Some in Hp as [-> _].
      rewrite contains_append in H. now apply orb_false_iff in H as [H _].
    + simpl. now apply contains_drop_last.
Qed.




(** The components [urlsplit] returns: no "/", "?" or "#" in the network
    location, no "?" or "#" in the path, no "#" in the query. *)
Lemma urlsplit_components ok s sch nl url q f :
  Urllib.urlsplit ok s = Ok (sch, nl, url, q, f) ->
  (forall c, Urllib.netloc_delim c = true -> contains c nl = false) /\
  contains "?" url = false /\ contains "#" url = false /\
  contains "#" q = false.
Proof.
  unfold Urllib.urlsplit.
  destruct (Urllib.split_scheme _) as [sch0 url0].
  assert (Hrest : forall rest,
            (let (u, fr) := match partition "#" rest with
                            | Some (u, fr) => (u, fr)
                            | None => (rest, "")
                            end in
             let (u', qu) := match partition "?" u with
                             | Some (u', qu) => (u', qu)
                             | None => (u, "")
                             end in
             (u', qu, fr)) = (url, q, f) ->
            contains "?" url = false /\ contains "#" url = false /\
            contains "#" q = false).
  { intros rest.
    assert (Hu : exists u fr,
               match partition "#" rest with
               | Some (u, fr) => (u, fr)
               | None => (rest, "")
               end = (u, fr) /\ contains "#" u = false).
    { destruct (partition "#" rest) as [[u fr] |] eqn:Hp.
      - exists u, fr. split; [reflexivity |].
        now apply partition_Some in Hp as [_ Hp].
      - exists rest, "". split; [reflexivity |]. now apply partition_None. }
    destruct Hu as (u & fr & -> & Hu).
    destruct (partition "?" u) as [[u' qu] |] eqn:Hp.
    - intros H; injection H as <- <- <-.
      apply partition_Some in Hp as [-> Hp].
      rewrite contains_append in Hu. apply orb_false_iff in Hu as [Hu1 Hu2].
      simpl in Hu2. auto.
    - intros H; injection H as <- <- <-.
      apply partition_None in Hp. simpl. auto. }
  destruct (String.prefix "//" url0).
  - pose proof (fun c => splitnetloc_delim c url0) as Hnl.
    destruct (Urllib._splitnetloc2 url0) as [nl0 rest]. simpl in Hnl.
    destruct (_ || _); [discriminate |].
    destruct (_ && _); [discriminate |].
    simpl.
    specialize (Hrest rest).
    destruct (match partition "#" rest with
              | Some (u, fr) => (u, fr)
              | None => (rest, "")
              end) as [u fr].
    destruct (match partition "?" u with
              | Some (u', qu) => (u', qu)
              | None => (u, "")
              end) as [u' qu].
    intros H; injection H as <- <- <- <- <-.
    split; [exact Hnl | now apply Hrest].
  - simpl.
    specialize (Hrest url0).
    destruct (match partition "#" url0 with
              | Some (u, fr) => (u, fr)
              | None => (url0, "")
              end) as [u fr].
    destruct (match partition "?" u with
              | Some (u', qu) => (u', qu)
              | None => (u, "")
              end) as [u' qu].
    intros H; injection H as <- <- <- <- <-.
    split; [intros c _; reflexivity | now apply Hrest].
Qed.

End UrlparseFacts.



(** X5. In what [urlparse] returns, the network location has no "/", "?"
    or "#" and the path has no "?" and no "#": the suffix test that the
    schema puts on the path never sees a query string or a fragment. *)
Theorem X5_urlparse_path_has_no_query_or_fragment ok s parsed :
  Urllib.urlparse ok s = Ok parsed ->
  contains "?" (Urllib.path parsed) = false /\
  contains "#" (Urllib.path parsed) = false /\
  contains "/" (Urllib.netloc parsed) = false /\
  contains "?" (Urllib.netloc parsed) = false /\
  contains "#" (Urllib.netloc parsed) = false.
Proof.
  unfold Urllib.urlparse.
  destruct (Urllib.urlsplit ok s) as [[[[[sch nl] url] q] f] | e] eqn:Hs;
    [| discriminate].
  apply urlsplit_components in Hs as (Hnl & Hq & Hf & _).
  simpl.
  pose proof (splitparams_fst "?" url Hq) as Hq'.
  pose proof (splitparams_fst "#" url Hf) as Hf'.
  destruct (_ && _).
  - destruct (Urllib._splitparams url) as [url' params]. simpl in Hq', Hf'.
    intros H; injection H as <-. simpl.
    repeat split; try assumption; now apply Hnl.
  - intros H; injection H as <-. simpl.
    repeat split; try assumption; now apply Hnl.
Qed.

Lemma X5_witness :
  contains "?" "/a.m3u8" = false /\
  contains "#" "/a.m3u8" = false /\
  contains "/" "h" = false /\
  contains "?" "h" = false /\
  contains "#" "h" = false.
Proof.
  apply (X5_urlparse_path_has_no_query_or_fragment
           Fixture.no_bracketed_host "https://h/a.m3u8?x=1#top"
           (Urllib.mkParseResult "https" "h" "/a.m3u8" "" "x=1" "top")).
  reflexivity.
Defined.

(* ===================================================================== *)
(** * Further properties: the schema and the method                      *)
(* ===================================================================== *)

Section MoreSchemaFacts.

Import Validate.

Context {T : Type} (host : Host T).






(** What a schema returns, it accepts again and returns unchanged. *)
Lemma Forall2_fixed {A} (f : A -> result A) l l' :
  (forall a b, f a = Ok b -> f b = Ok b) ->
  Forall2 (fun a b => f a = Ok b) l l' ->
  Forall2 (fun a b => f a = Ok b) l' l'.
Proof.
  intros Hf H. induction H as [| a b l l' Hab _ IH]; constructor;
    [now apply Hf with (a := a) | exact IH].
Qed.

Lemma source_schema_fixed a b :
  source_schema host a = Ok b -> source_schema host b = Ok b.
Proof.
  intros H. apply validate_dict_Ok in H as (d & x & y & -> & _ & Hy & ->).
  pose proof Hy as Hy'. apply file_schema_Ok in Hy' as [-> _].
  apply validate_dict_Ok. exists [("file", x)], x, x. auto.
Qed.

Lemma entry_schema_fixed a b :
  entry_schema host a = Ok b -> entry_schema host b = Ok b.
Proof.
  intros H. apply entry_schema_Ok in H as (d & l & l' & -> & _ & -> & Hall).
  apply validate_dict_Ok.
  exists [("sources", VList l')], (VList l'), (VList l').
  repeat split. apply validate_list_Ok. exists l', l'. repeat split.
  apply Forall2_fixed with (l := l); [apply source_schema_fixed | exact Hall].
Qed.


(** A validation error at the first entry of the playlist. *)
Lemma first_entry_refused body d entry es ve log :
  serves host body (VDict d) ->
  dict_get d "playlist" = Some (VList (entry :: es)) ->
  entry_schema host entry = Raise (ValidationError ve) ->
  _get_streams host log =
  (Raise (PluginError (UnableToValidate
            (KeyValue "playlist" (AnyOf [ve])))), log).
Proof.
  intros Hserves Hpl He.
  rewrite get_streams_eq, (http_get_serves _ _ _ Hserves), Schema_validate_eq.
  destruct Hserves as [_ ->].
  assert (Hdoc : document_schema host (VDict d) =
                 Raise (ValidationError (KeyValue "playlist" (AnyOf [ve])))).
  { apply validate_dict_error with (x := VList (entry :: es)); [assumption |].
    now apply validate_list_head_error. }
  rewrite Hdoc. reflexivity.
Qed.

End MoreSchemaFacts.

(** X6. Once validation has succeeded, the subscripting of line 55 can
    fail in one way only, with IndexError, and it does so exactly when the
    playlist is empty or the sources of its first entry are: the keys are
    there and the values have the right types, so there is no KeyError and
    no TypeError. *)
Theorem X6_subscripting_fails_only_with_IndexError {T} (host : Host T)
    text playlist :
  Validate.Schema_validate (schema host) (VStr text) = Ok playlist ->
  (forall e, first_file playlist = Raise e -> e = IndexError) /\
  (raised (first_file playlist) = true <->
   playlist = VList [] \/
   exists entries,
     playlist = VList (VDict [("sources", VList [])] :: entries)).
Proof.
  intros H. apply Schema_validate_accepted in H as (entries & -> & Hall).
  destruct Hall as [| entry entries (sources & -> & Hsrc) _].
  - split; [intros e H; now injection H as <- |].
    split; [now left | reflexivity].
  - destruct Hsrc as [| source sources (file & -> & _) _].
    + split; [intros e H; now injection H as <- |].
      split; [right; now exists entries | reflexivity].
    + split; [discriminate |].
      split; [discriminate |].
      intros [Hnil | (es & Hes)]; discriminate.
Qed.

Lemma X6_witness :
  (forall e, first_file (VList []) = Raise e -> e = IndexError) /\
  (raised (first_file (VList [])) = true <->
   VList [] = VList [] \/
   exists entries,
     VList [] = VList (VDict [("sources", VList [])] :: entries)).
Proof.
  apply (X6_subscripting_fails_only_with_IndexError
           (Fixture.host Fixture.empty_playlist) Fixture.empty_playlist).
  reflexivity.
Defined.



(** X8. The dict schema is a projection: the document it returns (only the
    keys of the schema, the values as they were) passes the schema again
    and comes back unchanged. *)
Theorem X8_validation_is_idempotent {T} (host : Host T) doc validated :
  document_schema host doc = Ok validated ->
  document_schema host validated = Ok validated.
Proof.
  intros H.
  apply document_schema_Ok in H as (d & l & l' & -> & _ & -> & Hall).
  apply validate_dict_Ok.
  exists [("playlist", VList l')], (VList l'), (VList l').
  repeat split. apply validate_list_Ok. exists l', l'. repeat split.
  apply Forall2_fixed with (l := l);
    [apply entry_schema_fixed | exact Hall].
Qed.

Lemma X8_witness :
  document_schema (Fixture.host "") (Fixture.decoded "https://h/a.m3u8")
  = Ok (Fixture.decoded "https://h/a.m3u8").
Proof.
  apply (X8_validation_is_idempotent (Fixture.host "")
           (VDict [("title", VStr "x");
                   ("playlist", VList [VDict [("sources",
                      VList [VDict [("file", VStr "https://h/a.m3u8");
                                    ("type", VStr "hls")]])]])])).
  reflexivity.
Defined.





(** X11. An exception of the HTTP request leaves the method as it is,
    before anything is decoded, validated or logged. *)
Theorem X11_request_failure_propagates {T} (host : Host T) e log :
  request_text host endpoint = Raise e ->
  _get_streams host log = (Raise e, log).
Proof.
  intros H. rewrite get_streams_eq. unfold http_get. rewrite H. reflexivity.
Qed.

Lemma X11_witness :
  _get_streams
    (mkHost Fixture.streams (fun _ => Raise (PluginError UnableToOpenUrl))
       Fixture.loads Fixture.no_bracketed_host Fixture.variant_playlist) []
  = (Raise (PluginError UnableToOpenUrl), []).
Proof.
  apply (X11_request_failure_propagates
           (mkHost Fixture.streams
              (fun _ => Raise (PluginError UnableToOpenUrl))
              Fixture.loads Fixture.no_bracketed_host
              Fixture.variant_playlist)).
  reflexivity.
Defined.

(** X12. A response of the wrong type at the top fails with SchemaError:
    a document that is not a JSON object, or whose "playlist" is not an
    array. *)
Theorem X12_wrong_type_is_a_schema_error {T} (host : Host T)
    body doc log :
  serves host body doc ->
  isinstance doc TDict = false \/
  (exists d v, doc = VDict d /\ dict_get d "playlist" = Some v /\
               isinstance v TList = false) ->
  exists e, _get_streams host log = (Raise e, log) /\ is_SchemaError e = true.
Proof.
  intros Hserves Hbad.
  rewrite get_streams_eq, (http_get_serves _ _ _ Hserves), Schema_validate_eq.
  destruct Hserves as [_ ->].
  destruct Hbad as [Hdoc | (d & v & -> & Hget & Hv)].
  - destruct doc; simpl in Hdoc; try discriminate;
      (eexists; split; reflexivity).
  - unfold document_schema, Validate.validate_dict; simpl. rewrite Hget.
    unfold Validate.validate_list, Validate.validate_type. rewrite Hv.
    simpl. eexists; split; reflexivity.
Qed.

Lemma X12_witness :
  exists e,
    _get_streams (Fixture.host "[1, 2]") [] = (Raise e, []) /\
    is_SchemaError e = true.
Proof.
  apply (X12_wrong_type_is_a_schema_error
           (Fixture.host "[1, 2]") "[1, 2]" (VList [VInt 1; VInt 2])).
  - split; reflexivity.
  - left. reflexivity.
Defined.

(** X13. A first entry without "sources", a first source without "file",
    or a first file that is not a string fails with SchemaError, before the
    method subscripts anything. *)
Theorem X13_missing_key_is_a_schema_error {T} (host : Host T)
    body d de es log :
  serves host body (VDict d) ->
  dict_get d "playlist" = Some (VList (VDict de :: es)) ->
  dict_get de "sources" = None \/
  (exists ds ss,
     dict_get de "sources" = Some (VList (VDict ds :: ss)) /\
     (dict_get ds "file" = None \/
      exists file, dict_get ds "file" = Some file /\
                   isinstance file TStr = false)) ->
  exists e, _get_streams host log = (Raise e, log) /\ is_SchemaError e = true.
Proof.
  intros Hserves Hpl Hbad.
  assert (He : exists ve,
             entry_schema host (VDict de) = Raise (ValidationError ve)).
  { destruct Hbad as [Hnone | (ds & ss & Hsrc & Hfile)].
    - unfold entry_schema, Validate.validate_dict; simpl. rewrite Hnone.
      eexists; reflexivity.
    - assert (Hs : exists ve,
                 source_schema host (VDict ds) = Raise (ValidationError ve)).
      { destruct Hfile as [Hnone | (file & Hget & Hty)].
        - unfold source_schema, Validate.validate_dict; simpl. rewrite Hnone.
          eexists; reflexivity.
        - eexists.
          apply validate_dict_error with (x := file); [assumption |].
          unfold file_schema, Validate.validate_callable, Validate.url,
            Validate.validate_type.
          rewrite Hty. reflexivity. }
      destruct Hs as (ve & Hs). eexists.
      apply validate_dict_error with (x := VList (VDict ds :: ss));
        [assumption |].
      apply validate_list_head_error. exact Hs. }
  destruct He as (ve & He).
  eexists; split.
  - now apply (first_entry_refused host body d (VDict de) es ve).
  - reflexivity.
Qed.

Lemma X13_witness :
  exists e,
    _get_streams (Fixture.host Fixture.no_file) [] = (Raise e, []) /\
    is_SchemaError e = true.
Proof.
  apply (X13_missing_key_is_a_schema_error
           (Fixture.host Fixture.no_file) Fixture.no_file
           [("playlist", VList [VDict [("sources",
               VList [VDict [("type", VStr "hls")]])]])]
           [("sources", VList [VDict [("type", VStr "hls")]])] []).
  - split; reflexivity.
  - reflexivity.
  - right. exists [("type", VStr "hls")], []. split; [reflexivity |].
    left. reflexivity.
Defined.

(** X14. The playlist that validation returns, the one the method logs and
    subscripts, holds nothing but the keys of the schema: every entry is a
    dict with the one key "sources", every source a dict with the one key
    "file" and an accepted URL; it has as many entries as the "playlist"
    of the response, whose other keys are dropped. *)
Theorem X14_validated_playlist_keeps_only_schema_keys {T} (host : Host T)
    text playlist :
  Validate.Schema_validate (schema host) (VStr text) = Ok playlist ->
  accepted_playlist host playlist /\
  exists d entries entries',
    json_loads host text = Some (VDict d) /\
    dict_get d "playlist" = Some (VList entries) /\
    playlist = VList entries' /\
    List.length entries' = List.length entries.
Proof.
  intros H. split; [now apply (Schema_validate_accepted host text) |].
  apply Schema_validate_Ok in H as (d & es & es' & Hjson & Hget & -> & Hall).
  exists d, es, es'. repeat split; try assumption.
  symmetry. clear -Hall. induction Hall; simpl; congruence.
Qed.

Lemma X14_witness :
  accepted_playlist (Fixture.host "")
    (VList [VDict [("sources",
       VList [VDict [("file", VStr "https://h/a.m3u8")];
              VDict [("file", VStr "https://h/b.m3u8?x=1")]])]]) /\
  exists d entries entries',
    json_loads (Fixture.host "") Fixture.two_sources = Some (VDict d) /\
    dict_get d "playlist" = Some (VList entries) /\
    VList [VDict [("sources",
       VList [VDict [("file", VStr "https://h/a.m3u8")];
              VDict [("file", VStr "https://h/b.m3u8?x=1")]])]]
    = VList entries' /\
    List.length entries' = List.length entries.
Proof.
  apply (X14_validated_playlist_keeps_only_schema_keys
           (Fixture.host "") Fixture.two_sources).
  reflexivity.
Defined.

